(** * Lessons backend (index.js): search dispatch, spaces update, order intake

    A shallow embedding of the four route handlers of [src/index.js] and of
    the parts of JavaScript and of the MongoDB collection interface they rely
    on, followed by the properties of the handlers.

    Conventions of the model.
    - A JavaScript string is a [string]: a sequence of 8-bit code units, the
      Latin-1 range of the UTF-16 code units of the language.
    - A JavaScript number is [NaN], an infinity or an exact rational
      ([number]); the rounding of binary64 arithmetic is not represented.
    - A handler is a function from the request and the database to the
      response and the database: every handler awaits exactly one collection
      operation, and MongoDB applies such an operation atomically to the
      document it touches. *)

From Stdlib Require Import String Ascii List Bool Arith ZArith QArith Qpower
  Qfield Lia.
Import ListNotations.

Set Warnings "-register-all".
Local Close Scope Q_scope.
Local Open Scope string_scope.
Local Open Scope bool_scope.

(** ** JavaScript values and coercions *)

Module JS.

(** Code points of WhiteSpace and LineTerminator below 256: TAB, LF, VT, FF,
    CR, SP and NBSP.  They are what [String.prototype.trim] strips and what
    StringToNumber skips. *)
Definition isWhiteSpace (c : ascii) : bool :=
  let n := nat_of_ascii c in
  ((9 <=? n)%nat && (n <=? 13)%nat) || (n =? 32)%nat || (n =? 160)%nat.

Fixpoint trimStart (s : string) : string :=
  match s with
  | EmptyString => EmptyString
  | String c r => if isWhiteSpace c then trimStart r else s
  end.

Fixpoint trimEnd (s : string) : string :=
  match s with
  | EmptyString => EmptyString
  | String c r =>
      match trimEnd r with
      | EmptyString => if isWhiteSpace c then EmptyString else String c EmptyString
      | r' => String c r'
      end
  end.

(** [s.trim()] *)
Definition trim (s : string) : string := trimEnd (trimStart s).

(** *** Numbers *)

Inductive number : Type :=
| NaN
| Inf (negative : bool)
| Fin (q : Q).

Definition isNaN (n : number) : bool :=
  match n with NaN => true | _ => false end.

Definition num_neg (n : number) : number :=
  match n with
  | NaN => NaN
  | Inf b => Inf (negb b)
  | Fin q => Fin (- q)%Q
  end.

(** IEEE addition on the three kinds of number. *)
Definition num_add (a b : number) : number :=
  match a, b with
  | NaN, _ | _, NaN => NaN
  | Inf x, Inf y => if Bool.eqb x y then Inf x else NaN
  | Inf x, Fin _ | Fin _, Inf x => Inf x
  | Fin p, Fin q => Fin (p + q)%Q
  end.

(** Numeric equality of two numbers as a query compares them: by value, with
    NaN equal to itself only. *)
Definition num_eqb (a b : number) : bool :=
  match a, b with
  | NaN, NaN => true
  | Inf x, Inf y => Bool.eqb x y
  | Fin p, Fin q => Qeq_bool p q
  | _, _ => false
  end.

Definition of_Z (z : Z) : number := Fin (inject_Z z).

(** *** StringToNumber (the grammar of StringNumericLiteral) *)

Definition isDigit (c : ascii) : bool :=
  let n := nat_of_ascii c in (48 <=? n)%nat && (n <=? 57)%nat.

Definition digit_of (radix : Z) (c : ascii) : option Z :=
  let n := Z.of_nat (nat_of_ascii c) in
  let d :=
    if (48 <=? n)%Z && (n <=? 57)%Z then (n - 48)%Z
    else if (97 <=? n)%Z && (n <=? 102)%Z then (n - 87)%Z
    else if (65 <=? n)%Z && (n <=? 70)%Z then (n - 55)%Z
    else 16%Z in
  if (d <? radix)%Z then Some d else None.

Fixpoint radix_value (radix acc : Z) (s : string) : option Z :=
  match s with
  | EmptyString => Some acc
  | String c r =>
      match digit_of radix c with
      | Some d => radix_value radix (acc * radix + d)%Z r
      | None => None
      end
  end.

(** The longest prefix of decimal digits and what follows it. *)
Fixpoint span_digits (s : string) : string * string :=
  match s with
  | EmptyString => (EmptyString, EmptyString)
  | String c r =>
      if isDigit c
      then let (d, rest) := span_digits r in (String c d, rest)
      else (EmptyString, s)
  end.

Fixpoint digits_value (acc : Z) (s : string) : Z :=
  match s with
  | EmptyString => acc
  | String c r => digits_value (acc * 10 + (Z.of_nat (nat_of_ascii c) - 48))%Z r
  end.

(** [0x..], [0o..] and [0b..] literals, unsigned, with at least one digit. *)
Definition NonDecimalIntegerLiteral (s : string) : option Z :=
  match s with
  | String z (String x r) =>
      let radix :=
        if Ascii.eqb x "x" || Ascii.eqb x "X" then Some 16%Z
        else if Ascii.eqb x "o" || Ascii.eqb x "O" then Some 8%Z
        else if Ascii.eqb x "b" || Ascii.eqb x "B" then Some 2%Z
        else None in
      match radix with
      | Some rdx =>
          if Ascii.eqb z "0" && negb (String.eqb r "")
          then radix_value rdx 0%Z r
          else None
      | None => None
      end
  | _ => None
  end.

(** What may follow the mantissa: nothing, or [e]/[E] and a signed integer
    that runs to the end of the string. *)
Definition ExponentPart (s : string) : option Z :=
  match s with
  | EmptyString => Some 0%Z
  | String c r =>
      if Ascii.eqb c "e" || Ascii.eqb c "E" then
        let '(neg, r') :=
          match r with
          | String sg t =>
              if Ascii.eqb sg "+" then (false, t)
              else if Ascii.eqb sg "-" then (true, t)
              else (false, r)
          | EmptyString => (false, r)
          end in
        let (ds, rest) := span_digits r' in
        if String.eqb ds "" || negb (String.eqb rest "") then None
        else Some (if neg then (- digits_value 0%Z ds)%Z else digits_value 0%Z ds)
      else None
  end.

Definition StrUnsignedDecimalLiteral (s : string) : number :=
  if String.eqb s "Infinity" then Inf false else
  let (ip, r1) := span_digits s in
  let (fp, r2) :=
    match r1 with
    | String p t => if Ascii.eqb p "." then span_digits t else (EmptyString, r1)
    | EmptyString => (EmptyString, r1)
    end in
  if String.eqb ip "" && String.eqb fp "" then NaN else
  match ExponentPart r2 with
  | None => NaN
  | Some e =>
      Fin (inject_Z (digits_value 0%Z (ip ++ fp))
           * Qpower (10 # 1) (e - Z.of_nat (String.length fp)))%Q
  end.

Definition StrDecimalLiteral (s : string) : number :=
  match s with
  | String sg r =>
      if Ascii.eqb sg "+" then StrUnsignedDecimalLiteral r
      else if Ascii.eqb sg "-" then num_neg (StrUnsignedDecimalLiteral r)
      else StrUnsignedDecimalLiteral s
  | EmptyString => StrUnsignedDecimalLiteral s
  end.

(** [Number(s)] for a string [s]. *)
Definition StringToNumber (s : string) : number :=
  let t := trim s in
  if String.eqb t "" then of_Z 0 else
  match NonDecimalIntegerLiteral t with
  | Some z => of_Z z
  | None => StrDecimalLiteral t
  end.

(** *** Values *)

(** The values of request bodies and of stored documents.  [VUndefined] is
    what reading an absent property gives; [VDate] and [VOid] are the two
    object kinds the handlers create ([new Date()], [new ObjectId(..)]). *)
Inductive value : Type :=
| VUndefined
| VNull
| VBool (b : bool)
| VNum (n : number)
| VStr (s : string)
| VArr (l : list value)
| VObj (o : list (string * value))
| VDate (ms : Z)
| VOid (hex : string).

Definition object : Type := list (string * value).

Fixpoint obj_get (k : string) (o : object) : option value :=
  match o with
  | [] => None
  | (k', v) :: r => if String.eqb k k' then Some v else obj_get k r
  end.

(** [o[k] = v]: an existing key keeps its place, a new key goes last. *)
Fixpoint obj_set (k : string) (v : value) (o : object) : object :=
  match o with
  | [] => [(k, v)]
  | (k', v') :: r =>
      if String.eqb k k' then (k, v) :: r else (k', v') :: obj_set k v r
  end.

(** Reading one of the properties the handlers read ([spacesDelta], [items],
    [name], [phone]) off a value: [None] is the TypeError of reading a
    property of [undefined] or [null]; arrays, dates, identities and
    primitives have no such property. *)
Definition get_prop (v : value) (k : string) : option value :=
  match v with
  | VUndefined | VNull => None
  | VObj o => Some (match obj_get k o with Some x => x | None => VUndefined end)
  | _ => Some VUndefined
  end.

(** ToBoolean *)
Definition truthy (v : value) : bool :=
  match v with
  | VUndefined | VNull => false
  | VBool b => b
  | VNum NaN => false
  | VNum (Inf _) => true
  | VNum (Fin q) => negb (Qeq_bool q 0%Q)
  | VStr s => negb (String.eqb s "")
  | VArr _ | VObj _ | VDate _ | VOid _ => true
  end.

(** [Number(v)].  An array is first joined with commas: the empty array gives
    the empty string, an array of one element the string of that element, and
    a longer one a string with a comma, which is no numeric literal.  A number
    printed and read back is itself; a plain object prints as
    [[object Object]], a date as a calendar text, an identity as its
    hexadecimal string. *)
Fixpoint ToNumber (v : value) : number :=
  match v with
  | VUndefined => NaN
  | VNull => of_Z 0
  | VBool b => if b then of_Z 1 else of_Z 0
  | VNum n => n
  | VStr s => StringToNumber s
  | VArr [] => of_Z 0
  | VArr [x] =>
      match x with
      | VUndefined | VNull => of_Z 0
      | VBool _ | VObj _ | VDate _ => NaN
      | _ => ToNumber x
      end
  | VArr _ => NaN
  | VObj _ => NaN
  | VDate ms => of_Z ms
  | VOid hex => StringToNumber hex
  end.

Fixpoint value_eqb (a b : value) : bool :=
  match a, b with
  | VUndefined, VUndefined => true
  | VNull, VNull => true
  | VBool x, VBool y => Bool.eqb x y
  | VNum x, VNum y => num_eqb x y
  | VStr x, VStr y => String.eqb x y
  | VArr x, VArr y =>
      (fix go (x y : list value) : bool :=
         match x, y with
         | [], [] => true
         | a :: x', b :: y' => value_eqb a b && go x' y'
         | _, _ => false
         end) x y
  | VObj x, VObj y =>
      (fix go (x y : list (string * value)) : bool :=
         match x, y with
         | [], [] => true
         | (k, a) :: x', (k', b) :: y' =>
             String.eqb k k' && value_eqb a b && go x' y'
         | _, _ => false
         end) x y
  | VDate x, VDate y => Z.eqb x y
  | VOid x, VOid y => String.eqb x y
  | _, _ => false
  end.

End JS.

(** ** Regular expressions of the store

    The [$regex] operator hands its pattern to PCRE.  The model covers the
    patterns built from literal characters, [.], [^], [$], a backslash before
    a character that is no letter or digit, the quantifiers [*], [+] and [?]
    after one character, and [|] between alternatives, matched without
    regard to the case of ASCII letters (option [i]).  A pattern outside that
    fragment compiles to [Unmodelled], about which nothing is said. *)

Module PCRE.

Inductive atom : Type :=
| AChar (c : ascii)
| AAny
| ABol
| AEol.

Inductive quant : Type := One | Star | Plus | Opt.

Definition branch : Type := list (atom * quant).
Definition regex : Type := list branch.

Inductive compiled : Type :=
| Compiled (r : regex)
| Invalid
| Unmodelled.

Definition code (c : ascii) : nat := nat_of_ascii c.

Definition isAlnum (c : ascii) : bool :=
  let n := code c in
  ((48 <=? n)%nat && (n <=? 57)%nat)
  || ((65 <=? n)%nat && (n <=? 90)%nat)
  || ((97 <=? n)%nat && (n <=? 122)%nat).

(** Characters the fragment does not read as themselves. *)
Definition isMeta (c : ascii) : bool :=
  existsb (Ascii.eqb c)
    ["\"; "^"; "$"; "."; "|"; "?"; "*"; "+"; "("; ")"; "["; "{"]%char
  || (code c =? 0)%nat || (128 <=? code c)%nat.

Definition quant_of (c : ascii) : option quant :=
  if Ascii.eqb c "*" then Some Star
  else if Ascii.eqb c "+" then Some Plus
  else if Ascii.eqb c "?" then Some Opt
  else None.

(** One pass over the pattern; [done] holds the finished alternatives and
    [cur] the pieces of the current one, both latest first. *)
Fixpoint parse (s : string) (done : list branch) (cur : branch) : compiled :=
  match s with
  | EmptyString => Compiled (rev (rev cur :: done))
  | String c r =>
      if Ascii.eqb c "|" then parse r (rev cur :: done) []
      else if Ascii.eqb c "\" then
        match r with
        | EmptyString => Invalid
        | String e r' =>
            if isAlnum e || (code e =? 0)%nat || (128 <=? code e)%nat
            then Unmodelled
            else parse r' done ((AChar e, One) :: cur)
        end
      else if Ascii.eqb c "." then parse r done ((AAny, One) :: cur)
      else if Ascii.eqb c "^" then parse r done ((ABol, One) :: cur)
      else if Ascii.eqb c "$" then parse r done ((AEol, One) :: cur)
      else match quant_of c with
      | Some q =>
          match cur with
          | [] => Invalid
          | (AChar x, One) :: cur' => parse r done ((AChar x, q) :: cur')
          | (AAny, One) :: cur' => parse r done ((AAny, q) :: cur')
          | _ => Unmodelled
          end
      | None =>
          if isMeta c then Unmodelled
          else parse r done ((AChar c, One) :: cur)
      end
  end.

Definition compile (pattern : string) : compiled := parse pattern [] [].

(** Case folding of option [i], on the ASCII letters. *)
Definition lower (c : ascii) : ascii :=
  let n := code c in
  if (65 <=? n)%nat && (n <=? 90)%nat then ascii_of_nat (n + 32) else c.

Definition atom_ok (a : atom) (c : ascii) : bool :=
  match a with
  | AChar p => Ascii.eqb (lower p) (lower c)
  | AAny => negb (code c =? 10)%nat
  | ABol | AEol => false
  end.

(** [$] holds at the end of the subject and before a final newline. *)
Definition at_end (s : string) : bool :=
  match s with
  | EmptyString => true
  | String c EmptyString => (code c =? 10)%nat
  | _ => false
  end.

(** Zero or more [a], then the continuation [k]; [bol] tells whether the
    position is the start of the subject. *)
Fixpoint match_star (a : atom) (k : bool -> string -> bool)
    (bol : bool) (s : string) : bool :=
  k bol s
  || match s with
     | EmptyString => false
     | String c s' => atom_ok a c && match_star a k false s'
     end.

Definition match_one (a : atom) (k : bool -> string -> bool)
    (s : string) : bool :=
  match s with
  | EmptyString => false
  | String c s' => atom_ok a c && k false s'
  end.

Fixpoint match_here (ps : branch) (bol : bool) (s : string) : bool :=
  match ps with
  | [] => true
  | (a, q) :: rest =>
      match a, q with
      | ABol, _ => bol && match_here rest bol s
      | AEol, _ => at_end s && match_here rest bol s
      | _, One => match_one a (match_here rest) s
      | _, Opt => match_here rest bol s || match_one a (match_here rest) s
      | _, Star => match_star a (match_here rest) bol s
      | _, Plus => match_one a (match_star a (match_here rest)) s
      end
  end.

(** Unanchored search: some alternative matches at some position. *)
Fixpoint search_at (r : regex) (bol : bool) (s : string) : bool :=
  existsb (fun b => match_here b bol s) r
  || match s with
     | EmptyString => false
     | String _ s' => search_at r false s'
     end.

Definition test (r : regex) (s : string) : bool := search_at r true s.

End PCRE.

(** ** The collection interface of the store *)

Module Mongo.
Import JS.

Definition document : Type := object.
Definition collection : Type := list document.

(** The result of an awaited collection call: a value, or a rejection that
    the handler's [catch] passes to the error handler, or a call whose query
    holds a pattern outside the modelled fragment. *)
Inductive outcome (A : Type) : Type :=
| Ok (a : A)
| Throws
| NotModelled.
Arguments Ok {A} a.
Arguments Throws {A}.
Arguments NotModelled {A}.

(** The conditions and queries the handlers build. *)
Inductive cond : Type :=
| Eq (v : value)                          (* { field: v } *)
| Regex (pattern options : string).       (* { field: { $regex, $options } } *)

Inductive query : Type :=
| QAll                                    (* {} *)
| QOr (clauses : list (string * cond)).   (* { $or: [ {f: c}, ... ] } *)

(** A condition with its pattern compiled.  Of the options only [i], the
    one the handlers pass, is modelled. *)
Inductive ccond : Type :=
| CEq (v : value)
| CRegex (r : PCRE.regex).

Definition compile_cond (c : cond) : outcome ccond :=
  match c with
  | Eq v => Ok (CEq v)
  | Regex p o =>
      if String.eqb o "i" then
        match PCRE.compile p with
        | PCRE.Compiled r => Ok (CRegex r)
        | PCRE.Invalid => Throws
        | PCRE.Unmodelled => NotModelled
        end
      else NotModelled
  end.

Fixpoint compile_clauses (l : list (string * cond))
  : outcome (list (string * ccond)) :=
  match l with
  | [] => Ok []
  | (f, c) :: r =>
      match compile_cond c with
      | Ok c' =>
          match compile_clauses r with
          | Ok r' => Ok ((f, c') :: r')
          | Throws => Throws
          | NotModelled => NotModelled
          end
      | Throws => Throws
      | NotModelled => NotModelled
      end
  end.

(** A field satisfies a condition by its value or, when it holds an array, by
    one of the elements. *)
Definition sat_value (c : ccond) (v : value) : bool :=
  match c with
  | CEq q => value_eqb q v
  | CRegex r => match v with VStr s => PCRE.test r s | _ => false end
  end.

Definition sat (c : ccond) (field : option value) : bool :=
  match field with
  | None => match c with CEq VNull => true | _ => false end
  | Some v =>
      sat_value c v
      || match v with VArr l => existsb (sat_value c) l | _ => false end
  end.

Definition sat_clause (d : document) (fc : string * ccond) : bool :=
  sat (snd fc) (obj_get (fst fc) d).

(** [collection.find(q).toArray()] *)
Definition find (q : query) (c : collection) : outcome (list document) :=
  match q with
  | QAll => Ok c
  | QOr l =>
      match compile_clauses l with
      | Ok l' => Ok (filter (fun d => existsb (sat_clause d) l') c)
      | Throws => Throws
      | NotModelled => NotModelled
      end
  end.

(** [{ $inc: { field: by } }] on one document: an absent field is set to the
    amount, a number is added to, anything else is a write error. *)
Definition inc (field : string) (by_ : number) (d : document)
  : option document :=
  match obj_get field d with
  | None => Some (obj_set field (VNum by_) d)
  | Some (VNum n) => Some (obj_set field (VNum (num_add n by_)) d)
  | Some _ => None
  end.

(** [findOneAndUpdate({ _id: id }, { $inc: { field: by } },
    { returnDocument: "after" })]: the first document with that identity is
    replaced by its update, in one step; the result carries the updated
    document as [value], or [null] ([None]) when there is none. *)
Fixpoint findOneAndUpdate (id : value) (field : string) (by_ : number)
    (c : collection) : outcome (option document * collection) :=
  match c with
  | [] => Ok (None, [])
  | d :: r =>
      if sat (CEq id) (obj_get "_id" d) then
        match inc field by_ d with
        | Some d' => Ok (Some d', d' :: r)
        | None => Throws
        end
      else
        match findOneAndUpdate id field by_ r with
        | Ok (res, r') => Ok (res, d :: r')
        | Throws => Throws
        | NotModelled => NotModelled
        end
  end.

Definition has_id (id : value) (d : document) : bool :=
  match obj_get "_id" d with
  | Some v => value_eqb v id
  | None => false
  end.

(** [insertOne(d)]: a document without [_id] (or with a null one) gets the
    identity [fresh] the driver generates; an array as identity and an
    identity already in the collection are write errors. *)
Definition insertOne (fresh : string) (d : document) (c : collection)
  : outcome (value * collection) :=
  let '(id, d') :=
    match obj_get "_id" d with
    | None | Some VNull | Some VUndefined =>
        (VOid fresh, obj_set "_id" (VOid fresh) d)
    | Some v => (v, d)
    end in
  match id with
  | VArr _ => Throws
  | _ => if existsb (has_id id) c then Throws else Ok (id, (c ++ [d'])%list)
  end.

End Mongo.

(** ** The handlers of index.js *)

Module Server.
Import JS Mongo.

(** The two collections behind [lessonsCollection()] and
    [ordersCollection()].  [app.listen] runs after [connectDb()] resolved, so
    a request always finds [db] set. *)
Record db : Type := { lessons : collection; orders : collection }.

Inductive payload : Type :=
| Send (text : string)         (* res.send(text) *)
| Json (v : value).            (* res.json(v) *)

Record response : Type := { status : nat; body : payload }.

Definition send (code : nat) (text : string) : response :=
  {| status := code; body := Send text |}.

Definition json (v : value) : response :=
  {| status := 200; body := Json v |}.

(** The final middleware: whatever a handler passes to [next(err)]. *)
Definition server_error : response := send 500 "Server error".

Definition isHex (c : ascii) : bool :=
  match digit_of 16 c with Some _ => true | None => false end.

Definition isByte (c : ascii) : bool := (nat_of_ascii c <? 128)%nat.

Definition hex_char (n : nat) : ascii :=
  ascii_of_nat (if (n <? 10)%nat then 48 + n else 87 + n).

Fixpoint hex_of_bytes (s : string) : string :=
  match s with
  | EmptyString => EmptyString
  | String c r =>
      String (hex_char (nat_of_ascii c / 16))
        (String (hex_char (nat_of_ascii c mod 16)) (hex_of_bytes r))
  end.

Fixpoint all_chars (p : ascii -> bool) (s : string) : bool :=
  match s with
  | EmptyString => true
  | String c r => p c && all_chars p r
  end.

Fixpoint map_chars (f : ascii -> ascii) (s : string) : string :=
  match s with
  | EmptyString => EmptyString
  | String c r => String (f c) (map_chars f r)
  end.

(** [new ObjectId(id)] for a string, in the releases of the driver whose
    [findOneAndUpdate] resolves to a result with a [value] field: 24
    hexadecimal digits give the identity they spell; a string of 12
    characters that are 12 bytes gives the identity made of those bytes; any
    other string makes the constructor throw. *)
Definition ObjectId (id : string) : option value :=
  if (String.length id =? 12)%nat then
    if all_chars isByte id then Some (VOid (hex_of_bytes id)) else None
  else if (String.length id =? 24)%nat && all_chars isHex id
  then Some (VOid (map_chars PCRE.lower id))
  else None.

(** GET /lessons *)
Definition get_lessons (st : db) : response :=
  match find QAll (lessons st) with
  | Ok items => json (VArr (map VObj items))
  | _ => server_error
  end.

(** [req.query.q]: absent, a string, or (for [q=a&q=b] and [q[k]=v]) an array
    or object, which is truthy and has no callable [trim]. *)
Inductive qparam : Type :=
| QAbsent
| QStr (s : string)
| QNested.

(** The filter of the text branch and of the numeric branch. *)
Definition text_query (q : string) : query :=
  let regex := Regex q "i" in
  QOr [("subject", regex); ("location", regex); ("description", regex)].

Definition numeric_query (num : number) : query :=
  QOr [("price", Eq (VNum num)); ("spaces", Eq (VNum num))].

(** The Query Translator: [None] is the 400 answer. *)
Definition translate (raw : string) : option query :=
  let q := trim raw in
  if negb (truthy (VStr q)) then None
  else
    let isNumeric := negb (isNaN (StringToNumber q)) in
    if isNumeric then Some (numeric_query (StringToNumber q))
    else Some (text_query q).

(** GET /search *)
Definition get_search (param : qparam) (st : db) : outcome response :=
  match param with
  | QNested => Ok server_error       (* TypeError: .trim is not a function *)
  | QAbsent | QStr _ =>
      let raw := match param with QStr s => s | _ => "" end in
      match translate raw with
      | None => Ok (send 400 "Missing search query 'q'")
      | Some query =>
          match find query (lessons st) with
          | Ok results => Ok (json (VArr (map VObj results)))
          | Throws => Ok server_error
          | NotModelled => NotModelled
          end
      end
  end.

(** PUT /lessons/:id *)
Definition put_lessons (id : string) (reqbody : value) (st : db)
  : response * db :=
  match get_prop reqbody "spacesDelta" with
  | None => (server_error, st)       (* destructuring undefined or null *)
  | Some spacesDelta =>
      let delta := ToNumber spacesDelta in
      if isNaN delta then (send 400 "spacesDelta must be a number", st)
      else
        match ObjectId id with
        | None => (server_error, st)  (* the constructor throws *)
        | Some oid =>
            match findOneAndUpdate oid "spaces" delta (lessons st) with
            | Ok (None, _) => (send 404 "Lesson not found", st)
            | Ok (Some doc, lessons') =>
                (json (VObj doc),
                 {| lessons := lessons'; orders := orders st |})
            | _ => (server_error, st)
            end
        end
  end.

(** What a request to POST /orders reads besides its body: the clock
    ([new Date()]) and the identity the driver would generate. *)
Record env : Type := { now : Z; fresh : string }.

(** [v.k] where [v] is known not to be [undefined] or [null]. *)
Definition prop (v : value) (k : string) : value :=
  match get_prop v k with Some x => x | None => VUndefined end.

(** The own enumerable properties [{...v}] copies.  Only an object reaches
    the spread: the other truthy values have no [items]. *)
Definition own_props (v : value) : object :=
  match v with VObj o => o | _ => [] end.

(** POST /orders *)
Definition post_orders (e : env) (order : value) (st : db) : response * db :=
  if negb (truthy order) || negb (truthy (prop order "items"))
     || negb (truthy (prop order "name")) || negb (truthy (prop order "phone"))
  then (send 400 "Invalid order payload", st)
  else
    match insertOne (fresh e)
            (obj_set "createdAt" (VDate (now e)) (own_props order))
            (orders st) with
    | Ok (insertedId, orders') =>
        (json (VObj [("ok", VBool true); ("orderId", insertedId)]),
         {| lessons := lessons st; orders := orders' |})
    | _ => (server_error, st)
    end.

End Server.

(** ** Concurrent requests

    A handler runs from its request to its one awaited collection call
    without touching shared state, and the store applies that call in one
    step.  Requests in flight are therefore served one collection call at a
    time, in an order the scheduler chooses. *)

Module Concurrent.
Import JS Mongo Server.

Inductive request : Type :=
| GetLessons
| Search (q : qparam)
| PutLesson (id : string) (reqbody : value)
| PostOrder (e : env) (order : value).

Definition handle (r : request) (st : db) : outcome (response * db) :=
  match r with
  | GetLessons => Ok (get_lessons st, st)
  | Search q =>
      match get_search q st with
      | Ok resp => Ok (resp, st)
      | Throws => Throws
      | NotModelled => NotModelled
      end
  | PutLesson id reqbody => Ok (put_lessons id reqbody st)
  | PostOrder e order => Ok (post_orders e order st)
  end.

Record config : Type :=
  { pending : list request;
    store : db;
    answered : list (request * response) }.

(** The scheduler picks any pending request and the store serves it. *)
Inductive step : config -> config -> Prop :=
| step_serve : forall before r after st resp st' done,
    handle r st = Ok (resp, st') ->
    step {| pending := before ++ r :: after; store := st; answered := done |}
         {| pending := before ++ after; store := st';
            answered := done ++ [(r, resp)] |}.

Inductive run : config -> config -> Prop :=
| run_stop : forall c, run c c
| run_next : forall a b c, step a b -> run b c -> run a c.

Definition start (rs : list request) (st : db) : config :=
  {| pending := rs; store := st; answered := [] |}.

Definition succeeded (a : request * response) : bool :=
  (status (snd a) =? 200)%nat.

End Concurrent.

(** ** The vocabulary of the specification *)

Module Spec.
Import JS Mongo Server Concurrent.



(** [t] occurs in [s], letters compared without case. *)
Fixpoint ci_prefix (t s : string) : bool :=
  match t, s with
  | EmptyString, _ => true
  | String _ _, EmptyString => false
  | String a t', String b s' =>
      Ascii.eqb (PCRE.lower a) (PCRE.lower b) && ci_prefix t' s'
  end.

Fixpoint ci_includes (t s : string) : bool :=
  ci_prefix t s
  || match s with
     | EmptyString => false
     | String _ s' => ci_includes t s'
     end.

(** An Item of the catalog: an identity assigned by the store, the texts
    [subject] and [location], an optional text [description], the numbers
    [price] and [spaces]. *)
Definition item_id (d : document) : option string :=
  match obj_get "_id" d with Some (VOid h) => Some h | _ => None end.

Definition is_text (v : option value) : bool :=
  match v with Some (VStr _) => true | _ => false end.

Definition is_number (v : option value) : bool :=
  match v with Some (VNum _) => true | _ => false end.

Definition is_item (d : document) : bool :=
  match item_id d with Some _ => true | None => false end
  && is_text (obj_get "subject" d) && is_text (obj_get "location" d)
  && match obj_get "description" d with
     | None | Some (VStr _) => true
     | _ => false
     end
  && is_number (obj_get "price" d) && is_number (obj_get "spaces" d).

Definition catalog (c : collection) : bool := forallb is_item c.

(** The Item with identity [h]. *)
Definition lookup (h : string) (c : collection) : option document :=
  List.find
    (fun d => match item_id d with
              | Some h' => String.eqb h h'
              | None => false
              end) c.

(** The number [n] is the integer [z]. *)
Definition is_int (n : number) (z : Z) : Prop :=
  match n with Fin q => (q == inject_Z z)%Q | _ => False end.

(** The Item [d] has [z] spaces. *)
Definition has_spaces (d : document) (z : Z) : Prop :=
  match obj_get "spaces" d with
  | Some (VNum n) => is_int n z
  | _ => False
  end.

(** The numeric field [k] of [d] equals [v]. *)
Definition field_equals (k : string) (v : Q) (d : document) : bool :=
  match obj_get k d with
  | Some (VNum (Fin p)) => Qeq_bool p v
  | _ => false
  end.

(** The text field [k] of [d] contains [t], letters compared without case. *)
Definition field_contains (k : string) (t : string) (d : document) : bool :=
  match obj_get k d with
  | Some (VStr s) => ci_includes t s
  | _ => false
  end.

(** The linear scans of the two dispatch paths. *)
Definition scan_numeric (v : Q) (c : collection) : list document :=
  filter (fun d => field_equals "price" v d || field_equals "spaces" v d) c.

Definition scan_text (t : string) (c : collection) : list document :=
  filter (fun d => field_contains "subject" t d
                   || field_contains "location" t d
                   || field_contains "description" t d) c.

(** A token of whitespace only. *)
Definition blank (s : string) : bool := all_chars isWhiteSpace s.

(** A token without a character that a pattern reads specially. *)
Definition plain (t : string) : bool :=
  all_chars (fun c => negb (PCRE.isMeta c)) t.

(** The pattern that reads [t] character by character. *)
Fixpoint literal (t : string) : PCRE.branch :=
  match t with
  | EmptyString => []
  | String c r => (PCRE.AChar c, PCRE.One) :: literal r
  end.

(** The two kinds of string that [new ObjectId] takes. *)
Definition hex24 (id : string) : bool :=
  (String.length id =? 24)%nat && all_chars isHex id.

Definition bytes12 (id : string) : bool :=
  (String.length id =? 12)%nat && all_chars isByte id.

(** The seed of the end-to-end scenario. *)
Definition math : document :=
  [("_id", VOid "65a1b2c3d4e5f60718293a4b"); ("subject", VStr "Math");
   ("location", VStr "Room1"); ("price", VNum (of_Z 20));
   ("spaces", VNum (of_Z 5))].

Definition seeded : db := {| lessons := [math]; orders := [] |}.

Definition delta (z : Z) : value := VObj [("spacesDelta", VNum (of_Z z))].


(** An order payload with a truthy [items], [name] and [phone]. *)
Definition valid_order (o : object) : bool :=
  truthy (prop (VObj o) "items") && truthy (prop (VObj o) "name")
  && truthy (prop (VObj o) "phone").

(** The identity the new order goes by: the caller's [_id] when the payload
    has one, the generated one otherwise. *)
Definition identity_of (e : env) (o : object) : value :=
  match obj_get "_id" o with
  | None | Some VNull | Some VUndefined => VOid (fresh e)
  | Some v => v
  end.

(** That identity can be stored: it is no array and no stored order has it. *)
Definition identity_free (e : env) (o : object) (c : collection) : bool :=
  match identity_of e o with
  | VArr _ => false
  | id => negb (existsb (has_id id) c)
  end.

(** The seed with every space taken. *)
Definition sold_out : db :=
  {| lessons := [obj_set "spaces" (VNum (of_Z 0)) math]; orders := [] |}.

(** [n] requests in flight, each taking one space of the Item [id]. *)
Definition takers (id : string) (n : nat) : list request :=
  repeat (PutLesson id (delta (-1))) n.

(** What holds while [m] of the takers of [id] are still pending: the Item
    [h] has [z] spaces and each of the [a] answers so far is a success. *)
Definition serving (id h : string) (m : nat) (z : Z) (a : nat) (c : config)
  : Prop :=
  pending c = takers id m
  /\ catalog (lessons (store c)) = true
  /\ (exists d, lookup h (lessons (store c)) = Some d /\ has_spaces d z)
  /\ forallb succeeded (answered c) = true
  /\ length (answered c) = a.

Definition clock : env :=
  {| now := 1762124400000; fresh := "65a1b2c3d4e5f60718293a4c" |}.

End Spec.

(** ** The application: the middleware of index.js in the order it is mounted

    [express.json()], the CORS middleware, the static files under [/images],
    the database guard, the four routes, the fallback of [/images] and the
    error handler.  The request logger writes a line and changes no answer;
    it is left out.  The path of a request is given by the place it leads to,
    as the router of Express finds it; requests with method HEAD are not
    modelled. *)

Module App.
Import JS Mongo Server.

Inductive method : Type := GET | POST | PUT | PATCH | DELETE | OPTIONS.

Inductive target : Type :=
| Images (rest : string)        (* /images and below *)
| Lessons                       (* /lessons *)
| SearchFor (q : qparam)        (* /search, with req.query.q *)
| Lesson (id : string)          (* /lessons/:id *)
| Orders                        (* /orders *)
| Elsewhere.

(** [parsed] is [req.body] after [express.json()], or [None] when the body
    parser rejects the body and passes its error on. *)
Record incoming : Type :=
  { meth : method;
    origin : option string;     (* req.headers.origin *)
    parsed : option value;
    path : target }.

Record reply : Type :=
  { headers : list (string * string); answer : response }.

(** [req.headers.origin || "*"] and the three fixed headers. *)
Definition cors_headers (o : option string) : list (string * string) :=
  [("Access-Control-Allow-Origin",
    match o with
    | Some s => if String.eqb s "" then "*" else s
    | None => "*"
    end);
   ("Access-Control-Allow-Credentials", "true");
   ("Access-Control-Allow-Methods", "GET,HEAD,OPTIONS,POST,PUT,PATCH,DELETE");
   ("Access-Control-Allow-Headers",
    "Content-Type, Authorization, X-Requested-With")].

Definition header (k : string) (r : reply) : option string :=
  option_map snd (List.find (fun kv => String.eqb k (fst kv)) (headers r)).

Definition is_options (m : method) : bool :=
  match m with OPTIONS => true | _ => false end.

Section Pipeline.

(** [express.static(imagesDir)]: the file it sends for a method and a path
    below [/images], or [None] when it calls [next()]. *)
Variable serve_static : method -> string -> option response.

(** What Express answers when no middleware takes the request. *)
Variable unmatched : incoming -> response.

(** The routes, reached with the database connected. *)
Definition routes (e : env) (body : value) (r : incoming) (st : db)
  : outcome (response * db) :=
  match meth r, path r with
  | GET, Lessons => Ok (get_lessons st, st)
  | GET, SearchFor q =>
      match get_search q st with
      | Ok resp => Ok (resp, st)
      | Throws => Throws
      | NotModelled => NotModelled
      end
  | PUT, Lesson id => Ok (put_lessons id body st)
  | POST, Orders => Ok (post_orders e body st)
  | _, Images _ => Ok (send 404 "Image not found", st)
  | _, _ => Ok (unmatched r, st)
  end.

(** One request through the application; [database] is the module variable
    [db], unset until [connectDb()] has resolved. *)
Definition app (e : env) (database : option db) (r : incoming)
  : outcome (reply * option db) :=
  match parsed r with
  | None => Ok ({| headers := []; answer := server_error |}, database)
  | Some body =>
      let h := cors_headers (origin r) in
      if is_options (meth r)
      then Ok ({| headers := h; answer := send 204 "" |}, database)
      else
        match
          match path r with
          | Images rest => serve_static (meth r) rest
          | _ => None
          end
        with
        | Some file => Ok ({| headers := h; answer := file |}, database)
        | None =>
            match database with
            | None =>
                Ok ({| headers := h;
                       answer := send 503 "Database not connected yet" |},
                    database)
            | Some st =>
                match routes e body r st with
                | Ok (resp, st') =>
                    Ok ({| headers := h; answer := resp |}, Some st')
                | Throws => Throws
                | NotModelled => NotModelled
                end
            end
        end
  end.

End Pipeline.

End App.

(** ** Further vocabulary *)

Module Laws.
Import JS Mongo Server Concurrent Spec.

(** [d'] is [d] but for its spaces. *)
Definition same_but_spaces (d d' : document) : Prop :=
  forall k, k <> "spaces" -> obj_get k d' = obj_get k d.





Definition is_quantifier (c : ascii) : bool :=
  match PCRE.quant_of c with Some _ => true | None => false end.

(** An identity a caller can give an order. *)
Definition own_identity (v : value) : bool :=
  match v with
  | VNull | VUndefined | VArr _ => false
  | _ => true
  end.

Definition order_ann : object :=
  [("items", VArr [VStr "Math"]); ("name", VStr "Ann");
   ("phone", VStr "0712")].

End Laws.

Import JS Mongo Server Concurrent Spec.
Import App Laws.

(** * Properties *)

(** ** Trimming *)

Section Trimming.

Lemma trimEnd_keeps_head (c : ascii) (r : string) :
  isWhiteSpace c = false -> trimEnd (String c r) = String c (trimEnd r).
Proof.
  intros Hc. simpl. rewrite Hc. destruct (trimEnd r); reflexivity.
Qed.


Lemma trimStart_head (s : string) :
  trimStart s = EmptyString
  \/ exists c r, trimStart s = String c r /\ isWhiteSpace c = false.
Proof.
  induction s as [|c r IH]; [left; reflexivity|].
  simpl. destruct (isWhiteSpace c) eqn:Hc; [exact IH|].
  right. exists c, r. split; [reflexivity | exact Hc].
Qed.


Lemma trimStart_blank (s : string) : blank s = true -> trimStart s = EmptyString.
Proof.
  induction s as [|c r IH]; [reflexivity|].
  unfold blank. simpl. intros H. apply andb_true_iff in H as [Hc Hr].
  rewrite Hc. exact (IH Hr).
Qed.

Lemma trim_blank (s : string) : blank s = true -> trim s = EmptyString.
Proof.
  intros H. unfold trim. rewrite (trimStart_blank s H). reflexivity.
Qed.

End Trimming.

(** ** Objects *)

Section Objects.

Lemma obj_get_set_same (k : string) (v : value) (o : object) :
  obj_get k (obj_set k v o) = Some v.
Proof.
  induction o as [|[k' v'] r IH]; simpl.
  - rewrite String.eqb_refl. reflexivity.
  - destruct (String.eqb k k') eqn:E; simpl.
    + rewrite String.eqb_refl. reflexivity.
    + rewrite E. exact IH.
Qed.

Lemma obj_get_set_other (k k' : string) (v : value) (o : object) :
  k <> k' -> obj_get k' (obj_set k v o) = obj_get k' o.
Proof.
  intros Hk. induction o as [|[k0 v0] r IH]; simpl.
  - destruct (String.eqb k' k) eqn:E; [|reflexivity].
    apply String.eqb_eq in E. congruence.
  - destruct (String.eqb k k0) eqn:E; simpl.
    + apply String.eqb_eq in E. subst k0.
      destruct (String.eqb k' k) eqn:E'; [|reflexivity].
      apply String.eqb_eq in E'. congruence.
    + destruct (String.eqb k' k0); [reflexivity | exact IH].
Qed.

End Objects.

(** ** GET /search: the empty token *)



(** ** PUT /lessons/:id: the checks before the store is reached *)



(** The absent field is one of these inputs. *)
Lemma put_lessons_missing_delta (id : string) (st : db) :
  put_lessons id (VObj []) st = (send 400 "spacesDelta must be a number", st).
Proof. reflexivity. Qed.


(** [null] and the empty string count as the number 0. *)
Example put_lessons_null_delta :
  put_lessons "65a1b2c3d4e5f60718293a4b" (VObj [("spacesDelta", VNull)]) seeded
  = (json (VObj (obj_set "spaces" (VNum (Fin (5 + 0))) math)),
     {| lessons := [obj_set "spaces" (VNum (Fin (5 + 0))) math];
        orders := [] |}).
Proof. reflexivity. Qed.

(** C10, as the code has it.  With a numeric [spacesDelta], a path segment
    that is neither 24 hexadecimal digits nor 12 bytes makes [new ObjectId]
    throw: the answer is the 500 of the error handler, not a 404, and the
    store is left as it was. *)
Theorem put_lessons_malformed_id_is_server_error
    (id : string) (reqbody v : value) (st : db) :
  hex24 id = false ->
  bytes12 id = false ->
  get_prop reqbody "spacesDelta" = Some v ->
  isNaN (ToNumber v) = false ->
  put_lessons id reqbody st = (send 500 "Server error", st)
  /\ status (fst (put_lessons id reqbody st)) <> 404.
Proof.
  intros Hhex Hbytes Hv Hn.
  assert (E : put_lessons id reqbody st = (send 500 "Server error", st)).
  { unfold put_lessons. rewrite Hv, Hn. unfold ObjectId.
    unfold hex24 in Hhex. unfold bytes12 in Hbytes. rewrite Hhex.
    destruct (String.length id =? 12)%nat; [|reflexivity].
    simpl in Hbytes. rewrite Hbytes. reflexivity. }
  split; [exact E|]. rewrite E. simpl. discriminate.
Qed.

Lemma put_lessons_malformed_id_is_server_error_witness :
  put_lessons "42" (delta (-1)) seeded = (send 500 "Server error", seeded)
  /\ status (fst (put_lessons "42" (delta (-1)) seeded)) <> 404.
Proof.
  apply (put_lessons_malformed_id_is_server_error "42" (delta (-1))
           (VNum (of_Z (-1))) seeded); reflexivity.
Defined.

(** C10 as stated fails: a path segment of 12 characters is no string of 24
    hexadecimal digits, the constructor takes it as 12 bytes, no Item has
    that identity, and the answer is 404. *)
Lemma put_lessons_twelve_bytes_is_not_found :
  ~ (forall (id : string) (reqbody v : value) (st : db),
       hex24 id = false ->
       get_prop reqbody "spacesDelta" = Some v ->
       isNaN (ToNumber v) = false ->
       put_lessons id reqbody st = (send 500 "Server error", st)
       /\ status (fst (put_lessons id reqbody st)) <> 404).
Proof.
  intros H.
  destruct (H "mathlesson12" (delta (-1)) (VNum (of_Z (-1))) seeded
              eq_refl eq_refl eq_refl) as [_ Hstatus].
  apply Hstatus. reflexivity.
Qed.

(** ** POST /orders *)

Section Orders.

Variable e : env.
Variable st : db.




Lemma insertOne_free (d : document) (c : collection) :
  identity_free e d c = true ->
  insertOne (fresh e) d c
  = Ok (identity_of e d,
        (c ++ [match obj_get "_id" d with
               | None | Some VNull | Some VUndefined =>
                   obj_set "_id" (VOid (fresh e)) d
               | Some _ => d
               end])%list).
Proof.
  unfold identity_free, identity_of, insertOne.
  destruct (obj_get "_id" d) as [[]|]; intros H;
    try discriminate H; apply negb_true_iff in H; rewrite H; reflexivity.
Qed.

(** C9.  For a valid payload whose identity is free, the order is stored with
    [createdAt] set to the clock of the server whatever the payload said, and
    with the other fields of the payload as they came. *)
Theorem post_orders_stamps_createdAt (o : object) :
  valid_order o = true ->
  identity_free e o (orders st) = true ->
  exists rec : document,
    post_orders e (VObj o) st
    = (json (VObj [("ok", VBool true); ("orderId", identity_of e o)]),
       {| lessons := lessons st; orders := (orders st ++ [rec])%list |})
    /\ obj_get "createdAt" rec = Some (VDate (now e))
    /\ forall k, k <> "createdAt" -> k <> "_id" -> obj_get k rec = obj_get k o.
Proof.
  intros Hv Hf. unfold valid_order in Hv.
  apply andb_true_iff in Hv as [Hv Hphone].
  apply andb_true_iff in Hv as [Hitems Hname].
  set (d := obj_set "createdAt" (VDate (now e)) o).
  assert (Hid : obj_get "_id" d = obj_get "_id" o)
    by (apply obj_get_set_other; discriminate).
  assert (Hf' : identity_free e d (orders st) = true)
    by (unfold identity_free, identity_of in *; rewrite Hid; exact Hf).
  assert (Hi : identity_of e d = identity_of e o)
    by (unfold identity_of; rewrite Hid; reflexivity).
  pose proof (insertOne_free d (orders st) Hf') as Hins. rewrite Hi in Hins.
  eexists. split; [|split].
  - unfold post_orders. rewrite Hitems, Hname, Hphone. simpl.
    fold d. rewrite Hins. reflexivity.
  - destruct (obj_get "_id" d) as [[]|];
      rewrite ?obj_get_set_other by discriminate;
      apply obj_get_set_same.
  - intros k Hk1 Hk2.
    assert (Hd : obj_get k d = obj_get k o)
      by (apply obj_get_set_other; congruence).
    destruct (obj_get "_id" d) as [[]|];
      rewrite ?obj_get_set_other by congruence; exact Hd.
Qed.

End Orders.



Lemma post_orders_stamps_createdAt_witness :
  exists rec : document,
    post_orders clock
      (VObj [("items", VArr [VStr "Math"]); ("name", VStr "Ann");
             ("phone", VStr "0712"); ("createdAt", VStr "1999-01-01")]) seeded
    = (json (VObj [("ok", VBool true);
                   ("orderId", VOid "65a1b2c3d4e5f60718293a4c")]),
       {| lessons := lessons seeded;
          orders := (orders seeded ++ [rec])%list |})
    /\ obj_get "createdAt" rec = Some (VDate 1762124400000)
    /\ forall k, k <> "createdAt" -> k <> "_id" ->
       obj_get k rec
       = obj_get k [("items", VArr [VStr "Math"]); ("name", VStr "Ann");
                    ("phone", VStr "0712"); ("createdAt", VStr "1999-01-01")].
Proof.
  apply (post_orders_stamps_createdAt clock seeded
           [("items", VArr [VStr "Math"]); ("name", VStr "Ann");
            ("phone", VStr "0712"); ("createdAt", VStr "1999-01-01")]);
    reflexivity.
Defined.

(** ** PUT /lessons/:id: the update *)

Section Update.

Lemma item_id_field (d : document) (h : string) :
  item_id d = Some h -> obj_get "_id" d = Some (VOid h).
Proof.
  unfold item_id. destruct (obj_get "_id" d) as [[]|]; intros H;
    inversion H; reflexivity.
Qed.

Lemma is_item_has_id (d : document) :
  is_item d = true -> exists h, item_id d = Some h.
Proof.
  unfold is_item. destruct (item_id d) as [h|]; [eauto | discriminate].
Qed.

(** On an Item the filter [{ _id: ObjectId }] compares identities. *)
Lemma sat_id_item (d : document) (h h' : string) :
  item_id d = Some h' ->
  sat (CEq (VOid h)) (obj_get "_id" d) = String.eqb h h'.
Proof.
  intros H. rewrite (item_id_field d h' H). simpl. apply orb_false_r.
Qed.

Lemma is_item_set_spaces (d : document) (n : number) :
  is_item d = true -> is_item (obj_set "spaces" (VNum n) d) = true.
Proof.
  unfold is_item, item_id. intros H.
  rewrite !obj_get_set_other by discriminate. rewrite obj_get_set_same.
  apply andb_true_iff in H as [H _]. rewrite H. reflexivity.
Qed.

Lemma item_id_set_spaces (d : document) (n : number) :
  item_id (obj_set "spaces" (VNum n) d) = item_id d.
Proof.
  unfold item_id. rewrite obj_get_set_other by discriminate. reflexivity.
Qed.

(** The update reaches the Item that [lookup] finds, replaces it in place by
    the incremented Item and returns that one. *)
Lemma findOneAndUpdate_hit (h : string) (by_ n : number) (d : document)
    (c : collection) :
  catalog c = true ->
  lookup h c = Some d ->
  obj_get "spaces" d = Some (VNum n) ->
  exists c',
    findOneAndUpdate (VOid h) "spaces" by_ c
    = Ok (Some (obj_set "spaces" (VNum (num_add n by_)) d), c')
    /\ lookup h c' = Some (obj_set "spaces" (VNum (num_add n by_)) d)
    /\ catalog c' = true
    /\ length c' = length c.
Proof.
  induction c as [|x r IH]; intros Hc Hl Hs; [discriminate Hl|].
  simpl in Hc. apply andb_true_iff in Hc as [Hx Hr].
  destruct (is_item_has_id x Hx) as [hx Ex].
  simpl in Hl. rewrite Ex in Hl.
  simpl findOneAndUpdate. rewrite (sat_id_item x h hx Ex).
  destruct (String.eqb h hx) eqn:E.
  - inversion Hl; subst x. unfold inc. rewrite Hs.
    eexists. split; [reflexivity|]. split; [|split].
    + simpl. rewrite item_id_set_spaces, Ex, E. reflexivity.
    + simpl. rewrite (is_item_set_spaces d _ Hx). exact Hr.
    + reflexivity.
  - destruct (IH Hr Hl Hs) as (c' & Hf & Hl' & Hc' & Hlen).
    rewrite Hf. eexists. split; [reflexivity|]. split; [|split].
    + simpl. rewrite Ex, E. exact Hl'.
    + simpl. rewrite Hx. exact Hc'.
    + simpl. rewrite Hlen. reflexivity.
Qed.

(** Without an Item of that identity the update changes nothing. *)
Lemma findOneAndUpdate_miss (h : string) (by_ : number) (c : collection) :
  catalog c = true ->
  lookup h c = None ->
  findOneAndUpdate (VOid h) "spaces" by_ c = Ok (None, c).
Proof.
  induction c as [|x r IH]; intros Hc Hl; [reflexivity|].
  simpl in Hc. apply andb_true_iff in Hc as [Hx Hr].
  destruct (is_item_has_id x Hx) as [hx Ex].
  simpl in Hl. rewrite Ex in Hl.
  simpl findOneAndUpdate. rewrite (sat_id_item x h hx Ex).
  destruct (String.eqb h hx); [discriminate Hl|].
  rewrite (IH Hr Hl). reflexivity.
Qed.

Lemma has_spaces_add (d : document) (n by_ : number) (s z : Z) :
  obj_get "spaces" d = Some (VNum n) ->
  is_int n s -> is_int by_ z ->
  has_spaces (obj_set "spaces" (VNum (num_add n by_)) d) (s + z).
Proof.
  intros _ Hn Hb. unfold has_spaces. rewrite obj_get_set_same.
  destruct n as [| |q]; try contradiction.
  destruct by_ as [| |p]; try contradiction.
  simpl in *. rewrite Hn, Hb, inject_Z_plus. reflexivity.
Qed.

(** Whatever the sign of the result, a numeric delta is added to the spaces
    of the Item, and the answer is the Item after the update. *)
Lemma put_lessons_applies (id h : string) (reqbody v : value) (st : db)
    (d : document) (s z : Z) :
  catalog (lessons st) = true ->
  ObjectId id = Some (VOid h) ->
  lookup h (lessons st) = Some d ->
  has_spaces d s ->
  get_prop reqbody "spacesDelta" = Some v ->
  is_int (ToNumber v) z ->
  exists (d' : document) (lessons' : collection),
    put_lessons id reqbody st
    = (json (VObj d'), {| lessons := lessons'; orders := orders st |})
    /\ lookup h lessons' = Some d'
    /\ has_spaces d' (s + z)
    /\ catalog lessons' = true.
Proof.
  intros Hc Hid Hl Hs Hv Hz.
  unfold has_spaces in Hs.
  destruct (obj_get "spaces" d) as [[| | |n| | | | |]|] eqn:En;
    try contradiction.
  destruct (findOneAndUpdate_hit h (ToNumber v) n d (lessons st) Hc Hl En)
    as (c' & Hf & Hl' & Hc' & _).
  exists (obj_set "spaces" (VNum (num_add n (ToNumber v))) d), c'.
  split; [|split; [exact Hl' | split; [|exact Hc']]].
  - unfold put_lessons. rewrite Hv, Hid.
    destruct (ToNumber v) eqn:Ev; try contradiction.
    simpl isNaN. cbv iota. rewrite Hf. reflexivity.
  - apply has_spaces_add; assumption.
Qed.



End Update.




(** ** Concurrent decrements of one Item *)

Section Decrements.

Variables id h : string.
Hypothesis Hid : ObjectId id = Some (VOid h).

Lemma takers_split (before after : list request) (r : request) (m : nat) :
  (before ++ r :: after)%list = takers id m ->
  r = PutLesson id (delta (-1))
  /\ exists m', m = S m' /\ (before ++ after)%list = takers id m'.
Proof.
  intros E. unfold takers in *.
  assert (Hall : forall x, In x (before ++ r :: after) ->
                           x = PutLesson id (delta (-1))).
  { intros x Hx. rewrite E in Hx. exact (repeat_spec _ _ _ Hx). }
  split; [apply Hall, in_elt|].
  assert (Hlen : length (before ++ r :: after) = m)
    by (rewrite E; apply repeat_length).
  rewrite length_app in Hlen. simpl in Hlen.
  exists (length (before ++ after)). split.
  - rewrite length_app. lia.
  - apply Forall_eq_repeat, Forall_forall. intros x Hx. symmetry.
    apply Hall. apply in_app_or in Hx. apply in_or_app.
    destruct Hx; [left | right; right]; assumption.
Qed.

Lemma step_serving (m : nat) (z : Z) (a : nat) (c c' : config) :
  step c c' -> serving id h m z a c ->
  exists m', m = S m' /\ serving id h m' (z - 1) (S a) c'.
Proof.
  intros Hstep (Hp & Hc & (d & Hl & Hs) & Hok & Hlen).
  destruct Hstep as [before r after st resp st' done Hh].
  simpl in *.
  destruct (takers_split before after r m Hp) as (-> & m' & -> & Hrest).
  exists m'. split; [reflexivity|].
  destruct (put_lessons_applies id h (delta (-1)) (VNum (of_Z (-1))) st d z
              (-1) Hc Hid Hl Hs eq_refl)
    as (d' & c1 & Hput & Hl' & Hs' & Hc'); [simpl; reflexivity|].
  simpl in Hh. rewrite Hput in Hh. inversion Hh; subst resp st'.
  unfold serving. simpl. repeat split.
  - exact Hrest.
  - exact Hc'.
  - exists d'. split; [exact Hl' | exact Hs'].
  - rewrite forallb_app, Hok. reflexivity.
  - rewrite length_app, Hlen. simpl. lia.
Qed.

Lemma run_serving (c final : config) :
  run c final -> pending final = [] ->
  forall m z a, serving id h m z a c ->
  serving id h 0 (z - Z.of_nat m) (a + m) final.
Proof.
  induction 1 as [c | c b final Hstep Hrun IH]; intros Hend m z a Hinv.
  - destruct Hinv as (Hp & Hrest).
    rewrite Hend in Hp. destruct m; [|discriminate Hp].
    replace (z - Z.of_nat 0)%Z with z by (simpl; lia).
    replace (a + 0) with a by lia.
    split; [exact Hend | exact Hrest].
  - destruct (step_serving m z a c b Hstep Hinv) as (m' & -> & Hinv').
    specialize (IH Hend m' (z - 1)%Z (S a) Hinv').
    replace (z - Z.of_nat (S m'))%Z with (z - 1 - Z.of_nat m')%Z by lia.
    replace (a + S m') with (S a + m') by lia.
    exact IH.
Qed.

Lemma run_completes (n : nat) (st : db) (done : list (request * response)) :
  exists final,
    run {| pending := takers id n; store := st; answered := done |} final
    /\ pending final = [].
Proof.
  revert st done. induction n as [|n IH]; intros st done.
  - eexists. split; [apply run_stop | reflexivity].
  - destruct (put_lessons id (delta (-1)) st) as [resp st'] eqn:E.
    destruct (IH st' (done ++ [(PutLesson id (delta (-1)), resp)])%list)
      as (final & Hrun & Hend).
    exists final. split; [|exact Hend].
    eapply run_next; [|exact Hrun].
    apply (step_serve [] (PutLesson id (delta (-1))) (takers id n)).
    simpl. rewrite E. reflexivity.
Qed.

(** C2, as the code has it.  With [k] spaces and [n > k] requests in flight
    that each take one, the requests can all be served, and however they are
    scheduled every one of the [n] succeeds and the Item ends with the
    negative count [k - n]. *)
Theorem decrements_all_succeed (st : db) (d : document) (k : Z) (n : nat) :
  catalog (lessons st) = true ->
  lookup h (lessons st) = Some d ->
  has_spaces d k ->
  (0 <= k < Z.of_nat n)%Z ->
  (exists final,
      run (start (takers id n) st) final /\ pending final = [])
  /\ forall final,
      run (start (takers id n) st) final -> pending final = [] ->
      length (answered final) = n
      /\ forallb succeeded (answered final) = true
      /\ exists d', lookup h (lessons (store final)) = Some d'
                    /\ has_spaces d' (k - Z.of_nat n).
Proof.
  intros Hc Hl Hs _. split; [apply run_completes|].
  intros final Hrun Hend.
  assert (Hinv : serving id h n k 0 (start (takers id n) st)).
  { unfold serving, start. simpl. repeat split; eauto. }
  destruct (run_serving _ _ Hrun Hend n k 0 Hinv)
    as (_ & _ & Hd & Hok & Hlen).
  simpl in Hlen. auto.
Qed.

End Decrements.

Lemma decrements_all_succeed_witness :
  (exists final,
      run (start (takers "65a1b2c3d4e5f60718293a4b" 6) seeded) final
      /\ pending final = [])
  /\ forall final,
      run (start (takers "65a1b2c3d4e5f60718293a4b" 6) seeded) final ->
      pending final = [] ->
      length (answered final) = 6
      /\ forallb succeeded (answered final) = true
      /\ exists d', lookup "65a1b2c3d4e5f60718293a4b"
                      (lessons (store final)) = Some d'
                    /\ has_spaces d' (5 - Z.of_nat 6).
Proof.
  apply (decrements_all_succeed "65a1b2c3d4e5f60718293a4b"
           "65a1b2c3d4e5f60718293a4b" eq_refl seeded math 5 6);
    try reflexivity.
  split; [discriminate | reflexivity].
Defined.

(** C2 as stated fails: one request on an Item without spaces is served with
    success. *)
Lemma decrement_of_sold_out_succeeds :
  ~ (forall (id h : string) (st : db) (d : document) (k : Z) (n : nat)
            (final : config),
       ObjectId id = Some (VOid h) ->
       catalog (lessons st) = true ->
       lookup h (lessons st) = Some d ->
       has_spaces d k ->
       (0 <= k < Z.of_nat n)%Z ->
       run (start (takers id n) st) final -> pending final = [] ->
       Z.of_nat (length (filter succeeded (answered final))) = k
       /\ Z.of_nat (length (filter (fun a => negb (succeeded a))
                              (answered final))) = (Z.of_nat n - k)%Z
       /\ forall d' z, lookup h (lessons (store final)) = Some d' ->
                       has_spaces d' z -> (0 <= z)%Z).
Proof.
  intros H.
  pose (r := PutLesson "65a1b2c3d4e5f60718293a4b" (delta (-1))).
  pose (resp := fst (put_lessons "65a1b2c3d4e5f60718293a4b" (delta (-1))
                       sold_out)).
  pose (st' := snd (put_lessons "65a1b2c3d4e5f60718293a4b" (delta (-1))
                      sold_out)).
  assert (Hrun : run (start (takers "65a1b2c3d4e5f60718293a4b" 1) sold_out)
                     {| pending := []; store := st';
                        answered := [(r, resp)] |}).
  { eapply run_next; [|apply run_stop].
    apply (step_serve [] r [] sold_out resp st' []). reflexivity. }
  assert (Hspaces : has_spaces (obj_set "spaces" (VNum (of_Z 0)) math) 0)
    by reflexivity.
  assert (Hk : (0 <= 0 < Z.of_nat 1)%Z) by (split; reflexivity).
  destruct (H "65a1b2c3d4e5f60718293a4b" "65a1b2c3d4e5f60718293a4b" sold_out
              (obj_set "spaces" (VNum (of_Z 0)) math) 0%Z 1 _
              eq_refl eq_refl eq_refl Hspaces Hk Hrun eq_refl) as (Hn & _).
  vm_compute in Hn. discriminate Hn.
Qed.

(** ** GET /search: the numeric path *)

Section NumericTokens.







Lemma Qeq_bool_same (q v p : Q) :
  (q == v)%Q -> Qeq_bool q p = Qeq_bool p v.
Proof.
  intros E.
  destruct (Qeq_bool q p) eqn:A; destruct (Qeq_bool p v) eqn:B; auto.
  - apply Qeq_bool_iff in A. apply Qeq_bool_neq in B.
    exfalso. apply B. rewrite <- A. exact E.
  - apply Qeq_bool_iff in B. apply Qeq_bool_neq in A.
    exfalso. apply A. rewrite E, B. reflexivity.
Qed.

Lemma sat_number_item (q v : Q) (k : string) (d : document) :
  (q == v)%Q -> is_number (obj_get k d) = true ->
  sat (CEq (VNum (Fin q))) (obj_get k d) = field_equals k v d.
Proof.
  intros E Hn. unfold field_equals.
  destruct (obj_get k d) as [[| | |n| | | | |]|]; try discriminate Hn.
  simpl. rewrite orb_false_r.
  destruct n as [| |p]; try reflexivity.
  simpl. apply Qeq_bool_same. exact E.
Qed.

(** On a catalog the numeric query selects what the linear scan selects. *)
Lemma find_numeric (q v : Q) (c : collection) :
  (q == v)%Q -> catalog c = true ->
  find (numeric_query (Fin q)) c = Ok (scan_numeric v c).
Proof.
  intros E Hc. unfold find, numeric_query, scan_numeric. simpl.
  f_equal. apply filter_ext_in. intros d Hd.
  unfold catalog in Hc. rewrite forallb_forall in Hc.
  specialize (Hc d Hd). unfold is_item in Hc.
  apply andb_true_iff in Hc as [Hc Hspaces].
  apply andb_true_iff in Hc as [_ Hprice].
  unfold sat_clause. simpl.
  rewrite (sat_number_item q v "price" d E Hprice).
  rewrite (sat_number_item q v "spaces" d E Hspaces).
  rewrite orb_false_r. reflexivity.
Qed.

(** Every token that [Number] reads as a finite number, a decimal one or
    not, takes the numeric path. *)
Lemma search_number_token (raw : string) (q v : Q) (st : db) :
  catalog (lessons st) = true ->
  trim raw <> EmptyString ->
  StringToNumber (trim raw) = Fin q ->
  (q == v)%Q ->
  get_search (QStr raw) st
  = Ok (json (VArr (map VObj (scan_numeric v (lessons st))))).
Proof.
  intros Hc Hne Hq E. unfold get_search, translate.
  destruct (trim raw) as [|c r] eqn:Et; [congruence|].
  simpl truthy. simpl negb. cbv iota.
  rewrite Hq. simpl isNaN. simpl negb. cbv iota.
  rewrite (find_numeric q v (lessons st) E Hc). reflexivity.
Qed.


End NumericTokens.


(** ** GET /search: the text path *)

Section TextTokens.

Lemma parse_plain_char (c : ascii) (r : string) (done : list PCRE.branch)
    (cur : PCRE.branch) :
  PCRE.isMeta c = false ->
  PCRE.parse (String c r) done cur
  = PCRE.parse r done ((PCRE.AChar c, PCRE.One) :: cur).
Proof.
  destruct c as [[] [] [] [] [] [] [] []]; intros H;
    try discriminate H; reflexivity.
Qed.

(** A token without special characters compiles to the pattern that reads
    it as it stands. *)
Lemma parse_plain (t : string) (done : list PCRE.branch) (cur : PCRE.branch) :
  plain t = true ->
  PCRE.parse t done cur
  = PCRE.Compiled (rev ((rev cur ++ literal t)%list :: done)).
Proof.
  revert cur. induction t as [|c r IH]; intros cur H.
  - simpl. rewrite app_nil_r. reflexivity.
  - unfold plain in H. simpl in H. apply andb_true_iff in H as [Hc Hr].
    apply negb_true_iff in Hc.
    rewrite (parse_plain_char c r done cur Hc), (IH _ Hr).
    simpl. rewrite <- app_assoc. reflexivity.
Qed.

Lemma compile_plain (t : string) :
  plain t = true -> PCRE.compile t = PCRE.Compiled [literal t].
Proof.
  intros H. unfold PCRE.compile. rewrite (parse_plain t [] [] H). reflexivity.
Qed.

Lemma match_here_literal (t : string) (bol : bool) (s : string) :
  PCRE.match_here (literal t) bol s = ci_prefix t s.
Proof.
  revert bol s. induction t as [|c r IH]; intros bol s.
  - destruct s; reflexivity.
  - destruct s as [|b s']; [reflexivity|].
    simpl. rewrite IH. reflexivity.
Qed.

Lemma search_literal (t : string) (bol : bool) (s : string) :
  PCRE.search_at [literal t] bol s = ci_includes t s.
Proof.
  revert bol. induction s as [|b s' IH]; intros bol.
  - simpl. rewrite match_here_literal. destruct t; reflexivity.
  - cbn [PCRE.search_at ci_includes existsb].
    rewrite match_here_literal, IH, orb_false_r. reflexivity.
Qed.

(** [ci_prefix] and [ci_includes] say what they are named for. *)
Lemma ci_prefix_spec (t s : string) :
  ci_prefix t s = true
  <-> exists mid post,
        s = mid ++ post
        /\ map_chars PCRE.lower mid = map_chars PCRE.lower t.
Proof.
  revert s. induction t as [|a t' IH]; intros s.
  - split; [|reflexivity]. intros _. exists "", s. split; reflexivity.
  - destruct s as [|b s'].
    + split; [discriminate|]. intros (mid & post & E & Hm).
      destruct mid; [discriminate Hm | discriminate E].
    + simpl. rewrite andb_true_iff, IH. split.
      * intros (Hab & mid & post & -> & Hm).
        apply Ascii.eqb_eq in Hab.
        exists (String b mid), post. split; [reflexivity|].
        simpl. rewrite Hm, Hab. reflexivity.
      * intros (mid & post & E & Hm).
        destruct mid as [|m mid']; [discriminate Hm|].
        simpl in E, Hm. injection E as -> ->. injection Hm as Hab Hm.
        split; [apply Ascii.eqb_eq; congruence|].
        exists mid', post. split; [reflexivity | exact Hm].
Qed.

Lemma ci_includes_spec (t s : string) :
  ci_includes t s = true
  <-> exists pre mid post,
        s = pre ++ mid ++ post
        /\ map_chars PCRE.lower mid = map_chars PCRE.lower t.
Proof.
  induction s as [|b s' IH].
  - simpl. rewrite orb_false_r, ci_prefix_spec. split.
    + intros (mid & post & E & Hm). exists "", mid, post. auto.
    + intros (pre & mid & post & E & Hm).
      destruct pre; [|discriminate E]. exists mid, post. auto.
  - cbn [ci_includes]. rewrite orb_true_iff, ci_prefix_spec, IH. split.
    + intros [(mid & post & E & Hm) | (pre & mid & post & E & Hm)].
      * exists "", mid, post. auto.
      * exists (String b pre), mid, post. simpl. rewrite E. auto.
    + intros (pre & mid & post & E & Hm).
      destruct pre as [|p pre'].
      * left. exists mid, post. auto.
      * right. simpl in E. inversion E; subst.
        exists pre', mid, post. auto.
Qed.

Lemma sat_text_item (t k : string) (d : document) :
  match obj_get k d with None | Some (VStr _) => true | _ => false end = true ->
  sat (CRegex [literal t]) (obj_get k d) = field_contains k t d.
Proof.
  unfold field_contains.
  destruct (obj_get k d) as [[| | | |s| | | |]|]; intros H;
    try discriminate H; [|reflexivity].
  simpl. unfold PCRE.test. rewrite search_literal. apply orb_false_r.
Qed.

(** On a catalog the text query of a token without special characters
    selects what the linear scan selects. *)
Lemma find_text_plain (t : string) (c : collection) :
  plain t = true -> catalog c = true ->
  find (text_query t) c = Ok (scan_text t c).
Proof.
  intros Hp Hc. unfold find, text_query, scan_text.
  unfold compile_clauses, compile_cond. rewrite (compile_plain t Hp).
  cbn [String.eqb Ascii.eqb Bool.eqb]. f_equal. apply filter_ext_in. intros d Hd.
  unfold catalog in Hc. rewrite forallb_forall in Hc.
  specialize (Hc d Hd). unfold is_item in Hc.
  apply andb_true_iff in Hc as [Hc _].
  apply andb_true_iff in Hc as [Hc _].
  apply andb_true_iff in Hc as [Hc H1].
  apply andb_true_iff in Hc as [Hc H2].
  apply andb_true_iff in Hc as [_ H3].
  unfold sat_clause. simpl.
  assert (Htext : forall k, is_text (obj_get k d) = true ->
            match obj_get k d with
            | None | Some (VStr _) => true
            | _ => false
            end = true).
  { intros k Hk. destruct (obj_get k d) as [[]|]; try discriminate Hk;
      reflexivity. }
  rewrite (sat_text_item t "subject" d (Htext _ H3)).
  rewrite (sat_text_item t "location" d (Htext _ H2)).
  rewrite (sat_text_item t "description" d H1).
  rewrite orb_false_r, orb_assoc. reflexivity.
Qed.

(** For a token that [Number] does not take and that has no special
    character, the answer is the list of the Items that contain the token in
    [subject], [location] or [description], letters compared without case. *)
Lemma search_plain_token (raw : string) (st : db) :
  catalog (lessons st) = true ->
  trim raw <> EmptyString ->
  StringToNumber (trim raw) = NaN ->
  plain (trim raw) = true ->
  get_search (QStr raw) st
  = Ok (json (VArr (map VObj (scan_text (trim raw) (lessons st))))).
Proof.
  intros Hc Hne Hn Hp. unfold get_search, translate.
  destruct (trim raw) as [|c r] eqn:Et; [congruence|].
  simpl truthy. simpl negb. cbv iota. rewrite Hn. simpl isNaN. simpl negb.
  cbv iota. rewrite (find_text_plain _ _ Hp Hc). reflexivity.
Qed.

End TextTokens.

Example search_math : 
  get_search (QStr "math") seeded = Ok (json (VArr [VObj math])).
Proof.
  rewrite (search_plain_token "math" seeded); try reflexivity. discriminate.
Qed.

(** C5 at tokens with a special character.  The token is handed to the store
    as a pattern: [m.th] selects the Item whose subject is Math although no
    text of it contains [m.th], and [*], which is no pattern, is answered by
    the error handler. *)
Theorem search_token_read_as_pattern :
  get_search (QStr "m.th") seeded = Ok (json (VArr [VObj math]))
  /\ scan_text "m.th" (lessons seeded) = []
  /\ get_search (QStr "*") seeded = Ok (send 500 "Server error").
Proof. repeat split. Qed.


(** * Further properties of the handlers *)

(** ** PUT /lessons/:id *)

Section UpdateLaws.

Lemma same_but_spaces_refl (c : collection) : Forall2 same_but_spaces c c.
Proof.
  induction c as [|d r IH]; constructor; [intros k _; reflexivity | exact IH].
Qed.

Lemma inc_same_but_spaces (by_ : number) (d d' : document) :
  inc "spaces" by_ d = Some d' -> same_but_spaces d d'.
Proof.
  unfold inc. intros H k Hk.
  destruct (obj_get "spaces" d) as [[]|]; inversion H; subst d';
    apply obj_get_set_other; congruence.
Qed.

Lemma findOneAndUpdate_same_but_spaces (oid : value) (by_ : number)
    (c c' : collection) (res : option document) :
  findOneAndUpdate oid "spaces" by_ c = Ok (res, c') ->
  Forall2 same_but_spaces c c'.
Proof.
  revert c' res. induction c as [|d r IH]; intros c' res H; simpl in H.
  - inversion H. constructor.
  - destruct (sat (CEq oid) (obj_get "_id" d)).
    + destruct (inc "spaces" by_ d) as [d'|] eqn:E; [|discriminate H].
      inversion H; subst. constructor.
      * exact (inc_same_but_spaces by_ d d' E).
      * apply same_but_spaces_refl.
    + destruct (findOneAndUpdate oid "spaces" by_ r) as [[res0 r']| |] eqn:E;
        try discriminate H.
      inversion H; subst. constructor.
      * intros k _. reflexivity.
      * eapply IH. reflexivity.
Qed.

(** X1.  A well-formed identity that no Item has is answered 404, and the
    store is left as it was. *)
Theorem put_lessons_unknown_id (id h : string) (reqbody v : value) (st : db) :
  catalog (lessons st) = true ->
  ObjectId id = Some (VOid h) ->
  lookup h (lessons st) = None ->
  get_prop reqbody "spacesDelta" = Some v ->
  isNaN (ToNumber v) = false ->
  put_lessons id reqbody st = (send 404 "Lesson not found", st).
Proof.
  intros Hc Hid Hl Hv Hn. unfold put_lessons. rewrite Hv, Hn, Hid.
  rewrite (findOneAndUpdate_miss h (ToNumber v) (lessons st) Hc Hl).
  reflexivity.
Qed.

(** X2.  Whatever the request, the handler leaves the orders alone, adds and
    removes no lesson, and changes no field of a lesson but [spaces]. *)
Theorem put_lessons_touches_spaces_only
    (id : string) (reqbody : value) (st : db) :
  orders (snd (put_lessons id reqbody st)) = orders st
  /\ Forall2 same_but_spaces
       (lessons st) (lessons (snd (put_lessons id reqbody st)))
  /\ length (lessons (snd (put_lessons id reqbody st)))
     = length (lessons st).
Proof.
  assert (H : orders (snd (put_lessons id reqbody st)) = orders st
              /\ Forall2 same_but_spaces
                   (lessons st) (lessons (snd (put_lessons id reqbody st)))).
  { unfold put_lessons.
    destruct (get_prop reqbody "spacesDelta") as [v|];
      [|split; [reflexivity | apply same_but_spaces_refl]].
    destruct (isNaN (ToNumber v));
      [split; [reflexivity | apply same_but_spaces_refl]|].
    destruct (ObjectId id) as [oid|];
      [|split; [reflexivity | apply same_but_spaces_refl]].
    destruct (findOneAndUpdate oid "spaces" (ToNumber v) (lessons st))
      as [[[d'|] c']| |] eqn:E; simpl;
      try (split; [reflexivity | apply same_but_spaces_refl]).
    split; [reflexivity|].
    exact (findOneAndUpdate_same_but_spaces _ _ _ _ _ E). }
  destruct H as [Ho Hl]. repeat split; auto.
  symmetry. exact (Forall2_length Hl).
Qed.


Lemma length_map_chars (f : ascii -> ascii) (s : string) :
  String.length (map_chars f s) = String.length s.
Proof. induction s as [|c r IH]; simpl; congruence. Qed.

Lemma isHex_lower (c : ascii) : isHex (PCRE.lower c) = isHex c.
Proof. destruct c as [[] [] [] [] [] [] [] []]; reflexivity. Qed.

Lemma lower_idem (c : ascii) : PCRE.lower (PCRE.lower c) = PCRE.lower c.
Proof. destruct c as [[] [] [] [] [] [] [] []]; reflexivity. Qed.

Lemma all_hex_lower (s : string) :
  all_chars isHex (map_chars PCRE.lower s) = all_chars isHex s.
Proof.
  induction s as [|c r IH]; simpl; [reflexivity|].
  rewrite isHex_lower, IH. reflexivity.
Qed.

(** X4.  The 24 hexadecimal digits of an identity are read without regard to
    case: two spellings that differ in case only address the same Item and
    get the same answer. *)
Theorem put_lessons_id_ignores_case (id id' : string) (reqbody : value)
    (st : db) :
  hex24 id = true ->
  map_chars PCRE.lower id = map_chars PCRE.lower id' ->
  put_lessons id reqbody st = put_lessons id' reqbody st.
Proof.
  intros Hhex Hlow.
  assert (Hlen : String.length id' = String.length id).
  { rewrite <- (length_map_chars PCRE.lower id'), <- Hlow.
    apply length_map_chars. }
  assert (Hall : all_chars isHex id' = all_chars isHex id).
  { rewrite <- (all_hex_lower id'), <- Hlow. apply all_hex_lower. }
  assert (E : ObjectId id = ObjectId id').
  { unfold ObjectId. rewrite Hlen, Hall, Hlow.
    unfold hex24 in Hhex. apply andb_true_iff in Hhex as [H24 _].
    apply Nat.eqb_eq in H24. rewrite H24. reflexivity. }
  unfold put_lessons. rewrite E. reflexivity.
Qed.

End UpdateLaws.

Lemma put_lessons_unknown_id_witness :
  put_lessons "65a1b2c3d4e5f60718293aff" (delta (-1)) seeded
  = (send 404 "Lesson not found", seeded).
Proof.
  apply (put_lessons_unknown_id "65a1b2c3d4e5f60718293aff"
           "65a1b2c3d4e5f60718293aff" (delta (-1)) (VNum (of_Z (-1)))
           seeded); reflexivity.
Defined.


Lemma put_lessons_id_ignores_case_witness :
  put_lessons "65A1B2C3D4E5F60718293A4B" (delta (-1)) seeded
  = put_lessons "65a1b2c3d4e5f60718293a4b" (delta (-1)) seeded.
Proof.
  apply put_lessons_id_ignores_case; reflexivity.
Defined.

(** ** GET /search *)

Section SearchLaws.

Lemma trimStart_empty_blank (s : string) :
  trimStart s = EmptyString -> blank s = true.
Proof.
  induction s as [|c r IH]; [reflexivity|].
  unfold blank. simpl. destruct (isWhiteSpace c); [exact IH | discriminate].
Qed.

Lemma trim_empty_blank (s : string) : trim s = EmptyString -> blank s = true.
Proof.
  unfold trim. intros H.
  destruct (trimStart_head s) as [E | (c & r & E & Hc)].
  - exact (trimStart_empty_blank s E).
  - rewrite E, (trimEnd_keeps_head c r Hc) in H. discriminate H.
Qed.

(** X5.  A string token is answered 400 exactly when it is empty or made of
    whitespace only: a token with one other character is searched for. *)
Theorem search_400_iff_blank (raw : string) (st : db) :
  get_search (QStr raw) st = Ok (send 400 "Missing search query 'q'")
  <-> blank raw = true.
Proof.
  split.
  - intros H. destruct (blank raw) eqn:Hb; [reflexivity|]. exfalso.
    unfold get_search, translate in H.
    destruct (trim raw) as [|c r] eqn:Et.
    + rewrite (trim_empty_blank raw Et) in Hb. discriminate Hb.
    + change (truthy (VStr (String c r))) with true in H.
      cbn [negb] in H.
      destruct (negb (isNaN (StringToNumber (String c r))));
        match type of H with
        | context [find ?q ?l] => destruct (find q l); discriminate H
        end.
  - intros Hb. unfold get_search, translate.
    rewrite (trim_blank raw Hb). reflexivity.
Qed.

Lemma filter_all (c : collection) : filter (fun _ => true) c = c.
Proof. induction c as [|d r IH]; simpl; congruence. Qed.

Lemma find_is_filter (q : query) (c : collection) (docs : list document) :
  find q c = Ok docs -> exists p, docs = filter p c.
Proof.
  destruct q as [|l]; simpl; intros H.
  - inversion H; subst. exists (fun _ => true). symmetry. apply filter_all.
  - destruct (compile_clauses l) as [l'| |]; inversion H. eauto.
Qed.

(** X6.  Every search that is answered 200 answers with lessons of the
    catalog, in the order of the catalog: the array is the catalog filtered
    by some test, so it holds no document that is not stored. *)
Theorem search_answers_stored_lessons (param : qparam) (st : db)
    (resp : response) :
  get_search param st = Ok resp ->
  status resp = 200 ->
  exists docs,
    body resp = Json (VArr (map VObj docs))
    /\ (exists p, docs = filter p (lessons st))
    /\ forall d, In d docs -> In d (lessons st).
Proof.
  intros H Hs.
  assert (Hq : forall raw, get_search (QStr raw) st = Ok resp ->
             exists docs, body resp = Json (VArr (map VObj docs))
                          /\ exists p, docs = filter p (lessons st)).
  { intros raw Hr. unfold get_search in Hr.
    destruct (translate raw) as [q|].
    - destruct (find q (lessons st)) as [docs| |] eqn:Ef.
      + inversion Hr; subst resp. exists docs. split; [reflexivity|].
        exact (find_is_filter q _ docs Ef).
      + inversion Hr; subst resp. discriminate Hs.
      + discriminate Hr.
    - inversion Hr; subst resp. discriminate Hs. }
  assert (Hdocs : exists docs, body resp = Json (VArr (map VObj docs))
                               /\ exists p, docs = filter p (lessons st)).
  { destruct param as [|raw|].
    - apply (Hq ""). exact H.
    - apply (Hq raw). exact H.
    - inversion H; subst resp. discriminate Hs. }
  destruct Hdocs as (docs & Hb & p & Hp).
  exists docs. split; [exact Hb|]. split; [eauto|].
  intros d Hd. rewrite Hp in Hd. apply filter_In in Hd. tauto.
Qed.

(** X7.  Numeric tokens are compared by value, not by spelling: two tokens
    that [Number] reads as the same finite number get the same answer. *)
Theorem search_number_by_value (a b : string) (p q : Q) (st : db) :
  catalog (lessons st) = true ->
  trim a <> EmptyString -> trim b <> EmptyString ->
  StringToNumber (trim a) = Fin p ->
  StringToNumber (trim b) = Fin q ->
  (p == q)%Q ->
  get_search (QStr a) st = get_search (QStr b) st.
Proof.
  intros Hc Ha Hb Hp Hq E.
  rewrite (search_number_token a p q st Hc Ha Hp E).
  rewrite (search_number_token b q q st Hc Hb Hq (Qeq_refl q)).
  reflexivity.
Qed.

Lemma ci_prefix_lower (t t' s : string) :
  map_chars PCRE.lower t = map_chars PCRE.lower t' ->
  ci_prefix t s = ci_prefix t' s.
Proof.
  revert t' s. induction t as [|a r IH]; intros [|a' r'] s H;
    try discriminate H; [reflexivity|].
  simpl in H. injection H as Ha Hr.
  destruct s as [|b s']; [reflexivity|].
  simpl. rewrite Ha, (IH r' s' Hr). reflexivity.
Qed.

Lemma ci_includes_lower (t t' s : string) :
  map_chars PCRE.lower t = map_chars PCRE.lower t' ->
  ci_includes t s = ci_includes t' s.
Proof.
  intros H. induction s as [|b s' IH]; cbn [ci_includes];
    rewrite (ci_prefix_lower t t' _ H); [reflexivity|].
  rewrite IH. reflexivity.
Qed.

Lemma scan_text_lower (t t' : string) (c : collection) :
  map_chars PCRE.lower t = map_chars PCRE.lower t' ->
  scan_text t c = scan_text t' c.
Proof.
  intros H. unfold scan_text. apply filter_ext. intros d.
  unfold field_contains.
  repeat match goal with
         | |- context [obj_get ?k d] =>
             destruct (obj_get k d) as [[]|];
             rewrite ?(ci_includes_lower t t' _ H)
         end; reflexivity.
Qed.

(** X8.  The text search does not see the case of the token: two tokens
    without special characters that [Number] does not take and that differ in
    the case of their letters only get the same answer. *)
Theorem search_token_ignores_case (a b : string) (st : db) :
  catalog (lessons st) = true ->
  trim a <> EmptyString -> trim b <> EmptyString ->
  StringToNumber (trim a) = NaN -> StringToNumber (trim b) = NaN ->
  plain (trim a) = true -> plain (trim b) = true ->
  map_chars PCRE.lower (trim a) = map_chars PCRE.lower (trim b) ->
  get_search (QStr a) st = get_search (QStr b) st.
Proof.
  intros Hc Ha Hb Na Nb Pa Pb E.
  rewrite (search_plain_token a st Hc Ha Na Pa).
  rewrite (search_plain_token b st Hc Hb Nb Pb).
  rewrite (scan_text_lower _ _ _ E). reflexivity.
Qed.

Lemma compile_leading_quantifier (c : ascii) (r : string) :
  is_quantifier c = true -> PCRE.compile (String c r) = PCRE.Invalid.
Proof.
  destruct c as [[] [] [] [] [] [] [] []]; intros H;
    try discriminate H; reflexivity.
Qed.

(** X9.  A token that starts with [*], [+] or [?] and that [Number] does not
    take is no pattern: the store rejects the query and the answer is the
    500 of the error handler, whatever the catalog holds. *)
Theorem search_leading_quantifier_is_server_error (raw : string) (c : ascii)
    (r : string) (st : db) :
  trim raw = String c r ->
  is_quantifier c = true ->
  StringToNumber (trim raw) = NaN ->
  get_search (QStr raw) st = Ok (send 500 "Server error").
Proof.
  intros Et Hq Hn. unfold get_search, translate. rewrite Hn, Et.
  simpl truthy. simpl negb. simpl isNaN. cbv iota.
  unfold find, text_query, compile_clauses, compile_cond.
  rewrite (compile_leading_quantifier c r Hq). reflexivity.
Qed.


End SearchLaws.

Lemma search_answers_stored_lessons_witness :
  exists docs,
    body (json (VArr [VObj math])) = Json (VArr (map VObj docs))
    /\ (exists p, docs = filter p (lessons seeded))
    /\ forall d, In d docs -> In d (lessons seeded).
Proof.
  apply (search_answers_stored_lessons (QStr "room") seeded); reflexivity.
Defined.

Lemma search_number_by_value_witness :
  get_search (QStr "20.0") seeded = get_search (QStr " 0x14") seeded.
Proof.
  apply (search_number_by_value "20.0" " 0x14"
           ((200 # 1) * (10 # 1) ^ (-1))%Q (20 # 1) seeded);
    try reflexivity; discriminate.
Defined.

Lemma search_token_ignores_case_witness :
  get_search (QStr "ROOM") seeded = get_search (QStr "room") seeded.
Proof.
  apply search_token_ignores_case; try reflexivity; discriminate.
Defined.

Lemma search_leading_quantifier_is_server_error_witness :
  get_search (QStr " ?where ") seeded = Ok (send 500 "Server error").
Proof.
  apply (search_leading_quantifier_is_server_error " ?where " "?"%char
           "where" seeded); reflexivity.
Defined.


(** ** POST /orders *)

Section OrderLaws.

Lemma value_eqb_refl : forall v : value, value_eqb v v = true.
Proof.
  fix IH 1. intros [| |b|n|s|l|o|ms|hex]; simpl; try reflexivity.
  - destruct b; reflexivity.
  - destruct n as [|b|q]; simpl;
      [reflexivity | destruct b; reflexivity | apply Qeq_bool_iff; reflexivity].
  - apply String.eqb_refl.
  - induction l as [|x r IHl]; [reflexivity|]. rewrite (IH x). exact IHl.
  - induction o as [|[k x] r IHo]; [reflexivity|].
    rewrite String.eqb_refl, (IH x). exact IHo.
  - apply Z.eqb_refl.
  - apply String.eqb_refl.
Qed.

Lemma prop_of_non_object (v : value) (k : string) :
  (forall o, v <> VObj o) -> prop v k = VUndefined.
Proof.
  intros H. destruct v as [| | | | | |o| |]; try reflexivity.
  exfalso. exact (H o eq_refl).
Qed.

(** X11.  The answer is 400 exactly when the payload is not an object with a
    truthy [items], [name] and [phone]: [null], an array, a string or a
    number as payload is rejected like an object that lacks a field, and a
    rejected payload stores nothing. *)
Theorem post_orders_rejects_exactly (e : env) (order : value) (st : db) :
  (fst (post_orders e order st) = send 400 "Invalid order payload"
   <-> forall o, order = VObj o -> valid_order o = false)
  /\ (fst (post_orders e order st) = send 400 "Invalid order payload" ->
      snd (post_orders e order st) = st).
Proof.
  assert (Hinv : (forall o, order = VObj o -> valid_order o = false) ->
                 post_orders e order st
                 = (send 400 "Invalid order payload", st)).
  { intros H. unfold post_orders.
    destruct order as [| |b|n|s|l|o|ms|hex];
      try (rewrite !prop_of_non_object by discriminate;
           simpl; rewrite ?orb_true_r; reflexivity).
    specialize (H o eq_refl). unfold valid_order in H.
    destruct (truthy (prop (VObj o) "items"));
      destruct (truthy (prop (VObj o) "name"));
      destruct (truthy (prop (VObj o) "phone"));
      try discriminate H; reflexivity. }
  assert (Hval : forall o, order = VObj o -> valid_order o = true ->
                 fst (post_orders e order st)
                 <> send 400 "Invalid order payload").
  { intros o -> Hv. unfold valid_order in Hv.
    apply andb_true_iff in Hv as [Hv Hp].
    apply andb_true_iff in Hv as [Hi Hn].
    unfold post_orders. rewrite Hi, Hn, Hp. simpl.
    destruct (insertOne _ _ _) as [[? ?]| |]; discriminate. }
  split.
  - split.
    + intros H o Ho. destruct (valid_order o) eqn:Hv; [|reflexivity].
      exfalso. exact (Hval o Ho Hv H).
    + intros H. rewrite (Hinv H). reflexivity.
  - intros H.
    assert (Hall : forall o, order = VObj o -> valid_order o = false).
    { intros o Ho. destruct (valid_order o) eqn:Hv; [|reflexivity].
      exfalso. exact (Hval o Ho Hv H). }
    rewrite (Hinv Hall). reflexivity.
Qed.

Lemma insertOne_appends (f : string) (d : document) (c c' : collection)
    (id : value) :
  insertOne f d c = Ok (id, c') ->
  exists rec, c' = (c ++ [rec])%list /\ obj_get "_id" rec = Some id
              /\ existsb (has_id id) c = false.
Proof.
  unfold insertOne. intros H.
  destruct (obj_get "_id" d) as [v|] eqn:Ev.
  - destruct v;
      try (destruct (existsb _ c) eqn:Ex; [discriminate H|];
           inversion H; subst; eexists; split; [reflexivity|];
           split; [first [exact Ev | apply obj_get_set_same] | exact Ex]);
      discriminate H.
  - destruct (existsb _ c) eqn:Ex; [discriminate H|].
    inversion H; subst. eexists. split; [reflexivity|].
    split; [apply obj_get_set_same | exact Ex].
Qed.

(** X12.  An order request never touches the lessons, and it either leaves
    the orders as they were, with an answer other than 200, or appends one
    order behind the stored ones, which stay as they were; the [orderId] of
    the answer is then the identity under which that order is stored. *)
Theorem post_orders_only_appends (e : env) (order : value) (st : db) :
  lessons (snd (post_orders e order st)) = lessons st
  /\ ((status (fst (post_orders e order st)) <> 200
       /\ snd (post_orders e order st) = st)
      \/ exists rec id,
           fst (post_orders e order st)
           = json (VObj [("ok", VBool true); ("orderId", id)])
           /\ orders (snd (post_orders e order st))
              = (orders st ++ [rec])%list
           /\ obj_get "_id" rec = Some id).
Proof.
  unfold post_orders.
  destruct (negb (truthy order) || negb (truthy (prop order "items"))
            || negb (truthy (prop order "name"))
            || negb (truthy (prop order "phone"))).
  - split; [reflexivity|]. left. split; [discriminate | reflexivity].
  - destruct (insertOne _ _ _) as [[id c']| |] eqn:E; simpl;
      try (split; [reflexivity|]; left;
           split; [discriminate | reflexivity]).
    split; [reflexivity|]. right.
    destruct (insertOne_appends _ _ _ _ _ E) as (rec & -> & Hid & _).
    exists rec, id. auto.
Qed.

(** X13.  An order that carries its own identity cannot be stored twice:
    once a payload with an [_id] is stored, sending it again, at any time, is
    answered 500 and stores nothing. *)
Theorem post_orders_replay_is_rejected (e e' : env) (o : object) (v : value)
    (st : db) :
  obj_get "_id" o = Some v ->
  own_identity v = true ->
  status (fst (post_orders e (VObj o) st)) = 200 ->
  post_orders e' (VObj o) (snd (post_orders e (VObj o) st))
  = (send 500 "Server error", snd (post_orders e (VObj o) st)).
Proof.
  intros Hid Hown H200.
  assert (Hid' : forall t, obj_get "_id" (obj_set "createdAt" (VDate t) o)
                           = Some v).
  { intros t. rewrite obj_get_set_other by discriminate. exact Hid. }
  unfold post_orders in *. simpl own_props in *.
  destruct (negb (truthy (VObj o)) || negb (truthy (prop (VObj o) "items"))
            || negb (truthy (prop (VObj o) "name"))
            || negb (truthy (prop (VObj o) "phone"))) eqn:Einv;
    [discriminate H200|].
  destruct (insertOne (fresh e) _ (orders st)) as [[id c']| |] eqn:E;
    try discriminate H200.
  simpl snd. simpl orders.
  destruct (insertOne_appends _ _ _ _ _ E) as (rec & -> & Hrec & _).
  assert (Ev : id = v).
  { unfold insertOne in E. rewrite (Hid' (now e)) in E.
    destruct v; try discriminate Hown;
      destruct (existsb _ (orders st)); inversion E; reflexivity. }
  subst id.
  assert (Hdup : existsb (has_id v) (orders st ++ [rec]) = true).
  { rewrite existsb_app. apply orb_true_iff. right. simpl.
    unfold has_id. rewrite Hrec, value_eqb_refl. reflexivity. }
  unfold insertOne. rewrite (Hid' (now e')).
  destruct v; try discriminate Hown; rewrite Hdup; reflexivity.
Qed.



Lemma put_lessons_frame (id : string) (reqbody : value)
    (l o : collection) :
  put_lessons id reqbody {| lessons := l; orders := o |}
  = (fst (put_lessons id reqbody {| lessons := l; orders := [] |}),
     {| lessons :=
          lessons (snd (put_lessons id reqbody
                          {| lessons := l; orders := [] |}));
        orders := o |}).
Proof.
  unfold put_lessons. simpl.
  destruct (get_prop reqbody "spacesDelta") as [v|]; [|reflexivity].
  destruct (isNaN (ToNumber v)); [reflexivity|].
  destruct (ObjectId id) as [oid|]; [|reflexivity].
  destruct (findOneAndUpdate oid "spaces" (ToNumber v) l)
    as [[[d'|] c']| |]; reflexivity.
Qed.

Lemma post_orders_frame (e : env) (order : value) (l o : collection) :
  post_orders e order {| lessons := l; orders := o |}
  = (fst (post_orders e order {| lessons := []; orders := o |}),
     {| lessons := l;
        orders :=
          orders (snd (post_orders e order
                         {| lessons := []; orders := o |})) |}).
Proof.
  unfold post_orders. simpl.
  destruct (negb (truthy order) || negb (truthy (prop order "items"))
            || negb (truthy (prop order "name"))
            || negb (truthy (prop order "phone"))); [reflexivity|].
  destruct (insertOne _ _ o) as [[id c']| |]; reflexivity.
Qed.

(** X15.  An update of spaces and an order are independent: served in either
    order they get the same two answers and leave the same database. *)
Theorem put_and_post_commute (id : string) (reqbody : value) (e : env)
    (order : value) (st : db) :
  let put_first := put_lessons id reqbody st in
  let then_post := post_orders e order (snd put_first) in
  let post_first := post_orders e order st in
  let then_put := put_lessons id reqbody (snd post_first) in
  fst put_first = fst then_put
  /\ fst then_post = fst post_first
  /\ snd then_post = snd then_put.
Proof.
  destruct st as [l o]. cbv zeta.
  rewrite (put_lessons_frame id reqbody l o).
  rewrite (post_orders_frame e order l o). simpl fst. simpl snd.
  rewrite (put_lessons_frame id reqbody l
             (orders (snd (post_orders e order
                             {| lessons := []; orders := o |})))).
  rewrite (post_orders_frame e order
             (lessons (snd (put_lessons id reqbody
                              {| lessons := l; orders := [] |}))) o).
  simpl. auto.
Qed.

End OrderLaws.

Lemma post_orders_replay_is_rejected_witness :
  post_orders clock (VObj (("_id", VStr "order-1") :: order_ann))
    (snd (post_orders clock (VObj (("_id", VStr "order-1") :: order_ann))
            seeded))
  = (send 500 "Server error",
     snd (post_orders clock (VObj (("_id", VStr "order-1") :: order_ann))
            seeded)).
Proof.
  apply (post_orders_replay_is_rejected clock clock
           (("_id", VStr "order-1") :: order_ann) (VStr "order-1") seeded);
    reflexivity.
Defined.


(** ** Concurrent updates of one Item *)

Section Adjustments.

Variables id h : string.
Hypothesis Hid : ObjectId id = Some (VOid h).







End Adjustments.


(** ** The application *)

Section Application.

Variable serve_static : method -> string -> option response.
Variable unmatched : incoming -> response.
Variable e : env.

Lemma routes_store (body : value) (r : incoming) (st st' : db)
    (resp : response) :
  routes unmatched e body r st = Ok (resp, st') ->
  st' = st
  \/ (meth r = PUT /\ (exists id, path r = Lesson id)
      /\ orders st' = orders st)
  \/ (meth r = POST /\ path r = Orders /\ lessons st' = lessons st).
Proof.
  unfold routes. intros H.
  destruct (meth r) eqn:Em; destruct (path r) as [rest| |q|i| |] eqn:Ep;
    try (inversion H; subst; left; reflexivity).
  - destruct (get_search q st); inversion H; subst. left. reflexivity.
  - right. right. inversion H.
    split; [reflexivity|]. split; [reflexivity|].
    destruct st as [l o]. rewrite post_orders_frame in H1.
    inversion H1. reflexivity.
  - right. left. inversion H.
    split; [reflexivity|]. split; [eauto|].
    destruct st as [l o]. rewrite put_lessons_frame in H1.
    inversion H1. reflexivity.
Qed.

(** X17.  The database changes through two routes only: a request that is
    answered leaves the database as it was unless it is a PUT on a lesson,
    which leaves the orders alone, or a POST on the orders, which leaves the
    lessons alone. *)
Theorem app_changes_store_by_two_routes (database db' : option db)
    (r : incoming) (rep : reply) :
  app serve_static unmatched e database r = Ok (rep, db') ->
  db' = database
  \/ exists st st',
       database = Some st /\ db' = Some st'
       /\ ((meth r = PUT /\ (exists id, path r = Lesson id)
            /\ orders st' = orders st)
           \/ (meth r = POST /\ path r = Orders
               /\ lessons st' = lessons st)).
Proof.
  unfold app. intros H.
  destruct (parsed r) as [body|]; [|inversion H; auto].
  destruct (is_options (meth r)); [inversion H; auto|].
  destruct (match path r with
            | Images rest => serve_static (meth r) rest
            | _ => None
            end); [inversion H; auto|].
  destruct database as [st|]; [|inversion H; auto].
  destruct (routes unmatched e body r st) as [[resp st']| |] eqn:E;
    try discriminate H.
  inversion H; subst.
  destruct (routes_store body r st st' resp E) as [-> | Hr]; [auto|].
  right. exists st, st'. auto.
Qed.

(** X18.  Every reply to a request whose body was parsed carries the four
    CORS headers, with [Access-Control-Allow-Origin] the origin of the
    request, or [*] when the request names none; a request whose body the
    parser rejects is answered 500 without them. *)
Theorem app_cors_headers (database db' : option db) (r : incoming)
    (rep : reply) :
  app serve_static unmatched e database r = Ok (rep, db') ->
  match parsed r with
  | Some _ =>
      headers rep = cors_headers (origin r)
      /\ header "Access-Control-Allow-Origin" rep
         = Some match origin r with
                | Some "" | None => "*"
                | Some o => o
                end
  | None => headers rep = [] /\ answer rep = send 500 "Server error"
  end.
Proof.
  unfold app. intros H.
  destruct (parsed r) as [body|]; [|inversion H; auto].
  assert (Hh : headers rep = cors_headers (origin r)).
  { destruct (is_options (meth r)); [inversion H; reflexivity|].
    destruct (match path r with
              | Images rest => serve_static (meth r) rest
              | _ => None
              end); [inversion H; reflexivity|].
    destruct database as [st|]; [|inversion H; reflexivity].
    destruct (routes unmatched e body r st) as [[resp st']| |];
      inversion H; reflexivity. }
  split; [exact Hh|].
  unfold header. rewrite Hh. simpl.
  destruct (origin r) as [[|c s]|]; reflexivity.
Qed.

(** X19.  An image that the static middleware does not send is answered 404
    when the database is connected and 503 when it is not, for every method
    but OPTIONS, and the database is left as it was. *)
Theorem app_missing_image (database : option db) (r : incoming)
    (rest : string) (body : value) :
  parsed r = Some body ->
  is_options (meth r) = false ->
  path r = Images rest ->
  serve_static (meth r) rest = None ->
  app serve_static unmatched e database r
  = Ok ({| headers := cors_headers (origin r);
           answer := match database with
                     | Some _ => send 404 "Image not found"
                     | None => send 503 "Database not connected yet"
                     end |},
        database).
Proof.
  intros Hb Ho Hp Hs. unfold app. rewrite Hb, Ho, Hp, Hs.
  destruct database as [st|]; [|reflexivity].
  unfold routes. rewrite Hp.
  destruct (meth r); try discriminate Ho; reflexivity.
Qed.

(** X20.  While the database is not connected no route runs: a request is
    answered 204 (OPTIONS), with a static file, with 503, or with 500 when
    its body was rejected, and the database stays unset. *)
Theorem app_without_database (r : incoming) (rep : reply)
    (db' : option db) :
  app serve_static unmatched e None r = Ok (rep, db') ->
  db' = None
  /\ (answer rep = send 204 ""
      \/ (exists rest, path r = Images rest
                       /\ serve_static (meth r) rest = Some (answer rep))
      \/ answer rep = send 503 "Database not connected yet"
      \/ (parsed r = None /\ answer rep = send 500 "Server error")).
Proof.
  unfold app. intros H.
  destruct (parsed r) as [body|]; [|inversion H; auto 6].
  destruct (is_options (meth r)); [inversion H; auto|].
  destruct (path r) as [rest| |q|i| |] eqn:Ep;
    try (inversion H; auto 6).
  destruct (serve_static (meth r) rest) as [file|] eqn:Es;
    inversion H; subst; simpl; [|auto 6].
  split; [reflexivity|]. right. left. exists rest. auto.
Qed.

End Application.

Lemma app_missing_image_witness :
  app (fun _ _ => None) (fun _ => send 404 "Cannot GET") clock None
    {| meth := GET; origin := Some "http://localhost:5173";
       parsed := Some (VObj []); path := Images "/maths.png" |}
  = Ok ({| headers := cors_headers (Some "http://localhost:5173");
           answer := send 503 "Database not connected yet" |},
        None).
Proof.
  apply (app_missing_image (fun _ _ => None) (fun _ => send 404 "Cannot GET")
           clock None
           {| meth := GET; origin := Some "http://localhost:5173";
              parsed := Some (VObj []); path := Images "/maths.png" |}
           "/maths.png" (VObj [])); reflexivity.
Defined.

Lemma app_changes_store_by_two_routes_witness :
  Some seeded = Some seeded
  \/ exists st st',
       Some seeded = Some st /\ Some seeded = Some st'
       /\ ((GET = PUT /\ (exists id, Lessons = Lesson id)
            /\ orders st' = orders st)
           \/ (GET = POST /\ Lessons = Orders
               /\ lessons st' = lessons st)).
Proof.
  apply (app_changes_store_by_two_routes (fun _ _ => None)
           (fun _ => send 404 "Cannot GET") clock (Some seeded) (Some seeded)
           {| meth := GET; origin := None; parsed := Some (VObj []);
              path := Lessons |}
           {| headers := cors_headers None; answer := get_lessons seeded |}).
  reflexivity.
Defined.

Lemma app_cors_headers_witness :
  headers {| headers := cors_headers None; answer := get_lessons seeded |}
  = cors_headers None
  /\ header "Access-Control-Allow-Origin"
       {| headers := cors_headers None; answer := get_lessons seeded |}
     = Some "*".
Proof.
  apply (app_cors_headers (fun _ _ => None)
           (fun _ => send 404 "Cannot GET") clock (Some seeded) (Some seeded)
           {| meth := GET; origin := None; parsed := Some (VObj []);
              path := Lessons |}
           {| headers := cors_headers None; answer := get_lessons seeded |}).
  reflexivity.
Defined.

Lemma app_without_database_witness :
  None = @None db
  /\ (send 503 "Database not connected yet" = send 204 ""
      \/ (exists rest, Orders = Images rest
                       /\ (fun (_ : method) (_ : string) => @None response)
                            POST rest
                          = Some (send 503 "Database not connected yet"))
      \/ send 503 "Database not connected yet"
         = send 503 "Database not connected yet"
      \/ (Some (VObj order_ann) = None
          /\ send 503 "Database not connected yet"
             = send 500 "Server error")).
Proof.
  apply (app_without_database (fun _ _ => None)
           (fun _ => send 404 "Cannot GET") clock
           {| meth := POST; origin := None; parsed := Some (VObj order_ann);
              path := Orders |}
           {| headers := cors_headers None;
              answer := send 503 "Database not connected yet" |} None).
  reflexivity.
Defined.

(** ** One Item at a time, and numbers that look like patterns *)

Section MoreLaws.



(** X22.  A token that [Number] reads as a number is never handed to the
    store as a pattern: whatever characters it holds and whatever the
    database holds, the search is answered 200. *)
Theorem search_number_is_never_a_pattern (raw : string) (st : db) :
  trim raw <> EmptyString ->
  isNaN (StringToNumber (trim raw)) = false ->
  exists docs,
    get_search (QStr raw) st = Ok (json (VArr (map VObj docs)))
    /\ forall d, In d docs -> In d (lessons st).
Proof.
  intros Hne Hn. unfold get_search, translate.
  destruct (trim raw) as [|c r] eqn:Et; [congruence|].
  change (truthy (VStr (String c r))) with true. cbn [negb].
  rewrite Hn. cbn [negb]. unfold find, numeric_query. simpl compile_clauses.
  eexists. split; [reflexivity|].
  intros d Hd. apply filter_In in Hd. tauto.
Qed.

End MoreLaws.


Lemma search_number_is_never_a_pattern_witness :
  exists docs,
    get_search (QStr "+1.5") seeded = Ok (json (VArr (map VObj docs)))
    /\ forall d, In d docs -> In d (lessons seeded).
Proof.
  apply search_number_is_never_a_pattern; [discriminate | reflexivity].
Defined.
